(** * switch_mod.hawaii.save_results: reports of a solved SWITCH model

    A shallow embedding of [src/switch_mod/hawaii/save_results.py] and the
    properties its specification states about it.

    Conventions of the embedding
    - Numbers.  Pyomo values and Python floats are exact rationals ([Q]);
      equalities between computed numbers are stated with [==] ([Qeq]).
      Rounding is outside this part of the model.  The two computations of
      which a stated property depends on the rounding, the annualizer and
      the peak-day label, are embedded again over binary64 floats, in the
      module [Doubles].
    - Exceptions.  A Python expression that can raise is a term of
      [res A]: [Ok a] or [Raise e].
    - Attributes.  An attribute every model carries is a plain field of
      [Model]; one that the source probes with [hasattr] is an [option].
    - Indexed components ([m.X[i]]) are finite maps; [m.X[i]] on an index
      that is not there raises [KeyError]. *)

From Stdlib Require Import PrimFloat QArith Qfield Qround Lqa.
From stdpp Require Import gmap strings list pretty.

Open Scope Q_scope.

(** ** Python values and exceptions *)

Inductive exn := KeyError | ZeroDivisionError | AttributeError | TypeError.

Inductive res (A : Type) :=
  | Ok (a : A)
  | Raise (e : exn).
Arguments Ok {A} a.
Arguments Raise {A} e.

#[global] Instance res_ret : MRet res := fun A a => Ok a.
#[global] Instance res_bind : MBind res := fun A B f r =>
  match r with Ok a => f a | Raise e => Raise e end.
#[global] Instance res_fmap : FMap res := fun A B f r =>
  match r with Ok a => Ok (f a) | Raise e => Raise e end.

(** A cell of a report, or a component of an index tuple. *)
Inductive pyval :=
  | VStr (s : string)
  | VInt (z : Z)
  | VFloat (q : Q).

Definition project := string.
Definition load_zone := string.
Definition fuel := string.
Definition gen_tech := string.
Definition energy_source := string.
Definition timeseries := string.
Definition market := string.
Definition tier := string.
Definition period := Z.
Definition timepoint := Z.

(** [str(x)] on an integer key. *)
Definition str (z : Z) : string := pretty z.

(** [d[k]]: subscript of an indexed component. *)
Definition subscript `{Countable K} {V} (d : gmap K V) (k : K) : res V :=
  match d !! k with
  | Some v => Ok v
  | None => Raise KeyError
  end.
Notation "d .[ k ]" := (subscript d k) (at level 1, format "d .[ k ]").

(** [m.X] for an attribute that may be missing, and [hasattr(m, 'X')]. *)
Definition attr {A} (o : option A) : res A :=
  match o with
  | Some a => Ok a
  | None => Raise AttributeError
  end.

Definition hasattr {A} (o : option A) : bool :=
  match o with
  | Some _ => true
  | None => false
  end.

(** [a / b] *)
Definition div (a b : Q) : res Q :=
  if Qeq_bool b 0 then Raise ZeroDivisionError else Ok (a / b).

(** [sum(l)] *)
Definition sum (l : list Q) : Q := foldl Qplus 0 l.

(** [(e(x) for x in l if cond(x))], evaluated left to right. *)
Fixpoint comprehension {A B} (cond : A -> res bool) (e : A -> res B)
    (l : list A) : res (list B) :=
  match l with
  | [] => Ok []
  | x :: l =>
      c ← cond x;
      if c : bool
      then v ← e x; vs ← comprehension cond e l; Ok (v :: vs)
      else comprehension cond e l
  end.

(** [(e(x) for x in l)] *)
Fixpoint for_each {A B} (e : A -> res B) (l : list A) : res (list B) :=
  match l with
  | [] => Ok []
  | x :: l => v ← e x; vs ← for_each e l; Ok (v :: vs)
  end.

(** [sorted(l)] on strings: insertion in code-point order. *)
Fixpoint insert_sorted (s : string) (l : list string) : list string :=
  match l with
  | [] => [s]
  | x :: l' => if String.leb s x then s :: l else x :: insert_sorted s l'
  end.

Definition sorted (l : list string) : list string :=
  foldr insert_sorted [] l.

(** [tuple(set(l))]: the distinct elements of [l].  Python fixes no order
    for a set; the one taken here is that of [remove_dups]. *)
Definition tuple_set `{EqDecision A} (l : list A) : list A := remove_dups l.

(** ** The external module [switch_mod.financials]

    Its two discount factors are used by the annualizer; their bodies are
    not part of this file's source, so they are an interface. *)
Class Financials := {
  uniform_series_to_present_value : Q -> Q -> Q;
  future_to_present_value : Q -> Q -> Q
}.

(** ** The solved model

    One field per attribute of [m] that [save_results.py] reads, under the
    attribute's own name. *)
Record Model := {
  (* m.options *)
  scenario_name : option string;
  (* index sets *)
  PERIODS : list period;
  TIMEPOINTS : list timepoint;
  TIMESERIES : list timeseries;
  LOAD_ZONES : list load_zone;
  PROJECTS : list project;
  FUELS : list fuel;
  NON_FUEL_ENERGY_SOURCES : list energy_source;
  PROJ_DISPATCH_POINTS : list (project * timepoint);
  PROJECT_BUILDYEARS : list (project * period);
  PERIOD_TPS : gmap period (list timepoint);
  G_FUELS : gmap gen_tech (list fuel);
  PROJECTS_BY_FUEL : gmap fuel (list project);
  PROJECTS_BY_NON_FUEL_ENERGY_SOURCE : gmap energy_source (list project);
  LZ_Energy_Components_Produce : list string;
  LZ_Energy_Components_Consume : list string;
  (* parameters *)
  discount_rate : Q;
  base_financial_year : Q;
  period_length_years : gmap period Q;
  period_start : gmap period Q;
  bring_timepoint_costs_to_base_year : gmap timepoint Q;
  tp_period : gmap timepoint period;
  tp_timestamp : gmap timepoint string;
  tp_ts : gmap timepoint timeseries;
  ts_scale_to_year : gmap timeseries Q;
  proj_gen_tech : gmap project gen_tech;
  proj_load_zone : gmap project load_zone;
  proj_overnight_cost : gmap (project * period) Q;
  proj_connect_cost_per_mw : gmap project Q;
  g_uses_fuel : gmap gen_tech bool;
  g_energy_source : gmap gen_tech energy_source;
  (* solved variables and expressions *)
  SystemCost : Q;
  SystemCostPerPeriod : gmap period Q;
  DispatchProj : gmap (project * timepoint) Q;
  DispatchUpperLimit : gmap (project * timepoint) Q;
  ProjFuelUseRate : gmap (project * timepoint * fuel) Q;
  ProjCapacity : gmap (project * period) Q;
  BuildProj : gmap (project * period) Q;
  (* m.Energy_Balance[z, t] is a constraint; m.dual maps constraints to
     shadow prices *)
  Energy_Balance : gmap (load_zone * timepoint) positive;
  dual : gmap positive Q;
  (* components indexed by (load zone, timepoint) that are reached by name,
     through getattr(m, c) *)
  components : gmap string (gmap (load_zone * timepoint) Q);
  (* attributes probed with hasattr, and those read next to them *)
  demand_response_max_share : option Q;
  RPSEligiblePower : option (gmap period Q);
  RPSTotalPower : option (gmap period Q);
  RPSFuelPower : option (gmap period Q);
  Battery_Capacity : option (gmap (load_zone * period) Q);
  battery_max_discharge : option Q;
  battery_min_discharge_time : option Q;
  Pumped_Hydro_Capacity_MW : option (gmap (load_zone * period) Q);
  FuelCellCapacityMW : option (gmap (load_zone * period) Q);
  BuildBattery : option (gmap (load_zone * period) Q);
  battery_capital_cost_per_mwh_capacity : option Q;
  battery_capital_cost_per_mwh_capacity_by_year : option (gmap period Q);
  BuildPumpedHydroMW : option (gmap (project * period) Q);
  PH_PROJECTS : option (list project);
  ph_load_zone : option (gmap project load_zone);
  ph_capital_cost_per_mw : option (gmap project Q);
  BuildElectrolyzerMW : option (gmap (load_zone * period) Q);
  BuildLiquifierKgPerHour : option (gmap (load_zone * period) Q);
  BuildLiquidHydrogenTankKg : option (gmap (load_zone * period) Q);
  BuildFuelCellMW : option (gmap (load_zone * period) Q);
  hydrogen_electrolyzer_capital_cost_per_mw : option Q;
  hydrogen_liquifier_capital_cost_per_kg_per_hour : option Q;
  liquid_hydrogen_tank_capital_cost_per_kg : option Q;
  hydrogen_fuel_cell_capital_cost_per_mw : option Q;
  ev_share : option (gmap (load_zone * period) Q);
  n_all_vehicles : option (gmap (load_zone * period) Q);
  ev_extra_annual_cost : option (gmap period Q);
  ice_annual_fuel_cost : option (gmap period Q);
  REGIONAL_FUEL_MARKET : option (list market);
  RFM_P_SUPPLY_TIERS :
    option (gmap (market * period) (list (market * period * tier)));
  RFM_SUPPLY_TIERS : option (list (market * period * tier));
  FuelConsumptionByTier : option (gmap (market * period * tier) Q);
  rfm_supply_tier_cost : option (gmap (market * period * tier) Q);
  RFM_Fixed_Costs_Annual : option (gmap period Q);
  RFMSupplyTierActivate : option (gmap (market * period * tier) Q)
}.

(** [getattr(m, c)] and [hasattr(m, c)] for a component named at run time. *)
Definition getattr (m : Model) (c : string)
    : res (gmap (load_zone * timepoint) Q) :=
  match m.(components) !! c with
  | Some d => Ok d
  | None => Raise AttributeError
  end.

Definition hasattr_name (m : Model) (c : string) : bool :=
  hasattr (m.(components) !! c).

(** ** The external module [switch_mod.hawaii.util] *)

(** Modelled from the spec: [util.get], the Sparse Value Accessor, whose
    body is not part of this file's source.  "Looking up an index not
    present in a sparse decision-variable map returns [default] rather than
    raising." *)
Definition get `{Countable K} {V} (d : gmap K V) (k : K) (default : V) : V :=
  match d !! k with
  | Some v => v
  | None => default
  end.

(** ** [annualize_present_value_period_cost] *)
Section Annualizer.
Context `{Financials}.

Definition discount_factor (m : Model) (p : period) : res Q :=
  n ← m.(period_length_years).[p];
  s ← m.(period_start).[p];
  Ok (uniform_series_to_present_value m.(discount_rate) n
      * future_to_present_value m.(discount_rate)
          (s - m.(base_financial_year))).

Definition annualize_present_value_period_cost
    (m : Model) (p : period) (val : Q) : res Q :=
  f ← discount_factor m p;
  div val f.
End Annualizer.

(** ** [DispatchProjByFuel] *)

(** [sum(m.ProjFuelUseRate[proj, tp, f] for f in m.G_FUELS[m.proj_gen_tech[proj]])] *)
Definition total_fuel_use_rate (m : Model) (proj : project) (tp : timepoint)
    : res Q :=
  g ← m.(proj_gen_tech).[proj];
  fs ← m.(G_FUELS).[g];
  rates ← for_each (fun f => m.(ProjFuelUseRate).[(proj, tp, f)]) fs;
  Ok (sum rates).

Definition DispatchProjByFuel (m : Model) (proj : project) (tp : timepoint)
    (f : fuel) : res Q :=
  let dispatch :=
    match m.(DispatchProj) !! (proj, tp) with
    | Some d => d
    | None => 0
    end in
  if Qeq_bool dispatch 0 then Ok 0
  else
    (* the operands are looked up first; only the division is guarded *)
    r ← m.(ProjFuelUseRate).[(proj, tp, f)];
    total ← total_fuel_use_rate m proj tp;
    match div (dispatch * r) total with
    | Raise ZeroDivisionError => Ok 0
    | other => other
    end.

(** ** The summary report *)

Definition summary_headers (m : Model) : list string :=
  ["scenario"; "max_demand_response_share"; "total_cost"; "cost_per_kwh"]
  ++ map (fun p => "cost_per_kwh_" +:+ str p) m.(PERIODS)
  ++ (if hasattr m.(RPSEligiblePower)
      then "renewable_share_all_years"
           :: map (fun p => "renewable_share_" +:+ str p) m.(PERIODS)
      else [])
  ++ (if hasattr m.(RPSEligiblePower)
      then "biofuel_share_all_years"
           :: map (fun p => "biofuel_share_" +:+ str p) m.(PERIODS)
      else []).

(** [sum(getattr(m, c)[lz, t] for c in demand_components for lz in m.LOAD_ZONES)] *)
Definition total_demand (m : Model) (demand_components : list string)
    (t : timepoint) : res Q :=
  sum <$> for_each (fun '(c, lz) => d ← getattr m c; d.[(lz, t)])
            (list_prod demand_components m.(LOAD_ZONES)).

(** The denominator of the cost per kWh over the timepoints [tps]. *)
Definition discounted_kwh (m : Model) (demand_components : list string)
    (tps : list timepoint) : res Q :=
  sum <$> for_each
    (fun t =>
       b ← m.(bring_timepoint_costs_to_base_year).[t];
       d ← total_demand m demand_components t;
       Ok (b * 1000 * d))
    tps.

(** [sum(m.X[p] for p in m.PERIODS)] for an attribute that may be missing. *)
Definition sum_over_periods (m : Model) (x : option (gmap period Q)) : res Q :=
  sum <$> for_each (fun p => d ← attr x; d.[p]) m.(PERIODS).

(** [m.X[p] / m.RPSTotalPower[p]] *)
Definition share_of_total (m : Model) (x : option (gmap period Q))
    (p : period) : res Q :=
  d ← attr x; a ← d.[p];
  d' ← attr m.(RPSTotalPower); b ← d'.[p];
  div a b.

Definition summary_values (m : Model) : res (list pyval) :=
  let demand_components :=
    filter (fun c => hasattr_name m c = true)
      ["lz_demand_mw"; "DemandResponse"; "ChargeEVs"]%string in
  let values :=
    [VStr (default "None"%string m.(scenario_name));
     VFloat (default 0 m.(demand_response_max_share))] in
  let values := values ++ [VFloat m.(SystemCost)] in
  kwh ← discounted_kwh m demand_components m.(TIMEPOINTS);
  c ← div m.(SystemCost) kwh;
  let values := values ++ [VFloat c] in
  cs ← for_each
    (fun p =>
       cost ← m.(SystemCostPerPeriod).[p];
       tps ← m.(PERIOD_TPS).[p];
       kwh ← discounted_kwh m demand_components tps;
       VFloat <$> div cost kwh)
    m.(PERIODS);
  let values := values ++ cs in
  if hasattr m.(RPSEligiblePower) then
    e ← sum_over_periods m m.(RPSEligiblePower);
    t ← sum_over_periods m m.(RPSTotalPower);
    r ← div e t;
    let values := values ++ [VFloat r] in
    rs ← for_each (fun p => VFloat <$> share_of_total m m.(RPSEligiblePower) p)
           m.(PERIODS);
    let values := values ++ rs in
    f ← sum_over_periods m m.(RPSFuelPower);
    t ← sum_over_periods m m.(RPSTotalPower);
    r ← div f t;
    let values := values ++ [VFloat r] in
    rs ← for_each (fun p => VFloat <$> share_of_total m m.(RPSFuelPower) p)
           m.(PERIODS);
    Ok (values ++ rs)
  else Ok values.

(** ** The energy-sources report *)

(** [float(sum(m.ts_scale_to_year[ts] for ts in m.TIMESERIES)) / len(m.TIMESERIES)] *)
Definition avg_ts_scale (m : Model) : res Q :=
  scales ← for_each (fun ts => m.(ts_scale_to_year).[ts]) m.(TIMESERIES);
  div (sum scales) (inject_Z (Z.of_nat (length m.(TIMESERIES)))).

Definition energy_sources_headings (m : Model) : list string :=
  ["load_zone"; "period"; "timepoint_label"]
  ++ m.(FUELS)
  ++ m.(NON_FUEL_ENERGY_SOURCES)
  ++ map (fun s => "curtail_" +:+ s) m.(NON_FUEL_ENERGY_SOURCES)
  ++ m.(LZ_Energy_Components_Produce)
  ++ m.(LZ_Energy_Components_Consume)
  ++ ["marginal_cost"; "peak_day"].

(** ['peak' if m.ts_scale_to_year[m.tp_ts[t]] < avg_ts_scale else 'typical'] *)
Definition peak_day (m : Model) (avg : Q) (t : timepoint) : res string :=
  ts ← m.(tp_ts).[t];
  scale ← m.(ts_scale_to_year).[ts];
  Ok (if Qlt_le_dec scale avg then "peak" else "typical")%string.

Definition energy_sources_values (m : Model) (avg : Q)
    (z : load_zone) (t : timepoint) : res (list pyval) :=
  pe ← m.(tp_period).[t];
  label ← m.(tp_timestamp).[t];
  by_fuel ← for_each
    (fun f =>
       ps ← m.(PROJECTS_BY_FUEL).[f];
       VFloat ∘ sum <$> for_each (fun p => DispatchProjByFuel m p t f) ps)
    m.(FUELS);
  by_source ← for_each
    (fun s =>
       ps ← m.(PROJECTS_BY_NON_FUEL_ENERGY_SOURCE).[s];
       Ok (VFloat (sum (map (fun p => get m.(DispatchProj) (p, t) 0) ps))))
    m.(NON_FUEL_ENERGY_SOURCES);
  curtail ← for_each
    (fun s =>
       ps ← m.(PROJECTS_BY_NON_FUEL_ENERGY_SOURCE).[s];
       Ok (VFloat (sum (map
         (fun p => get m.(DispatchUpperLimit) (p, t) 0
                   - get m.(DispatchProj) (p, t) 0) ps))))
    m.(NON_FUEL_ENERGY_SOURCES);
  produce ← for_each (fun c => d ← getattr m c; VFloat <$> d.[(z, t)])
    m.(LZ_Energy_Components_Produce);
  consume ← for_each (fun c => d ← getattr m c; VFloat <$> d.[(z, t)])
    m.(LZ_Energy_Components_Consume);
  c ← m.(Energy_Balance).[(z, t)];
  b ← m.(bring_timepoint_costs_to_base_year).[t];
  marginal_cost ← div (get m.(dual) c 0) b;
  peak ← peak_day m avg t;
  Ok ([VStr z; VInt pe; VStr label]
      ++ by_fuel ++ by_source ++ curtail ++ produce ++ consume
      ++ [VFloat marginal_cost; VStr peak]).

(** ** Installed capacity *)

(** The materiality threshold, [0.001]. *)
Definition threshold : Q := 1 # 1000.

(** [value(x) > 0.001] *)
Definition above_threshold (x : Q) : bool :=
  if Qlt_le_dec threshold x then true else false.

(** The lambda [g_energy_source] of [write_results] (the attribute of the
    same name is the field [g_energy_source]). *)
Definition g_energy_source_lambda (m : Model) (t : gen_tech)
    : res energy_source :=
  u ← m.(g_uses_fuel).[t];
  if u : bool
  then fs ← m.(G_FUELS).[t]; Ok (String.concat "/" (sorted fs))
  else m.(g_energy_source).[t].

Definition built_proj (m : Model) : res (list project) :=
  tuple_set <$> comprehension
    (fun '(pe, pr) => above_threshold <$> m.(ProjCapacity).[(pr, pe)])
    (fun '(pe, pr) => Ok pr)
    (list_prod m.(PERIODS) m.(PROJECTS)).

Definition operate_proj_in_period (m : Model) : res (list (project * period)) :=
  tuple_set <$> comprehension
    (fun '(pr, tp) => above_threshold <$> m.(DispatchProj).[(pr, tp)])
    (fun '(pr, tp) => pe ← m.(tp_period).[tp]; Ok (pr, pe))
    m.(PROJ_DISPATCH_POINTS).

Definition built_tech (m : Model) (built_proj : list project)
    : res (list gen_tech) :=
  tuple_set <$> for_each (fun p => m.(proj_gen_tech).[p]) built_proj.

Definition built_energy_source (m : Model) (built_tech : list gen_tech)
    : res (list energy_source) :=
  tuple_set <$> for_each (g_energy_source_lambda m) built_tech.

Definition battery_capacity_mw (m : Model) (z : load_zone) (pe : period)
    : res Q :=
  match m.(Battery_Capacity) with
  | Some d =>
      c ← d.[(z, pe)];
      a ← attr m.(battery_max_discharge);
      b ← attr m.(battery_min_discharge_time);
      div (c * a) b
  | None => Ok 0
  end.

(** [(m.ProjCapacity[pr, pe] if ((pr, pe) in operate_proj_in_period) else 0.0)] *)
Definition capacity_if_operated (m : Model)
    (operate_proj_in_period : list (project * period))
    (pr : project) (pe : period) : res Q :=
  if bool_decide ((pr, pe) ∈ operate_proj_in_period)
  then m.(ProjCapacity).[(pr, pe)]
  else Ok 0.

(** [m.proj_gen_tech[pr] == t and m.proj_load_zone[pr] == z] *)
Definition tech_in_zone (m : Model) (t : gen_tech) (z : load_zone)
    (pr : project) : res bool :=
  g ← m.(proj_gen_tech).[pr];
  if bool_decide (g = t)
  then lz ← m.(proj_load_zone).[pr]; Ok (bool_decide (lz = z))
  else Ok false.

(** [g_energy_source(m.proj_gen_tech[pr]) == s and m.proj_load_zone[pr] == z] *)
Definition source_in_zone (m : Model) (s : energy_source) (z : load_zone)
    (pr : project) : res bool :=
  g ← m.(proj_gen_tech).[pr];
  s' ← g_energy_source_lambda m g;
  if bool_decide (s' = s)
  then lz ← m.(proj_load_zone).[pr]; Ok (bool_decide (lz = z))
  else Ok false.

(** The sum of one capacity column: the capacity of the built projects
    that [selected] lets through, counted where the project operated. *)
Definition capacity_sum (m : Model) (built_proj : list project)
    (operate_proj_in_period : list (project * period))
    (selected : project -> res bool) (pe : period) : res Q :=
  sum <$> comprehension selected
            (fun pr => capacity_if_operated m operate_proj_in_period pr pe)
            built_proj.

(** The three trailing cells of both capacity reports. *)
Definition storage_capacities (m : Model) (z : load_zone) (pe : period)
    : res (list pyval) :=
  hydro ← match m.(Pumped_Hydro_Capacity_MW) with
          | Some d => VFloat <$> d.[(z, pe)]
          | None => Ok (VInt 0)
          end;
  batteries ← battery_capacity_mw m z pe;
  fuel_cells ← match m.(FuelCellCapacityMW) with
               | Some d => VFloat <$> d.[(z, pe)]
               | None => Ok (VInt 0)
               end;
  Ok [hydro; VFloat batteries; fuel_cells].

Definition capacity_by_technology_headings (built_tech : list gen_tech)
    : list string :=
  ["load_zone"; "period"] ++ built_tech ++ ["hydro"; "batteries"; "fuel cells"].

Definition capacity_by_technology_values (m : Model)
    (built_proj : list project)
    (operate_proj_in_period : list (project * period))
    (built_tech : list gen_tech) (z : load_zone) (pe : period)
    : res (list pyval) :=
  by_tech ← for_each
    (fun t => VFloat <$>
       capacity_sum m built_proj operate_proj_in_period (tech_in_zone m t z) pe)
    built_tech;
  storage ← storage_capacities m z pe;
  Ok ([VStr z; VInt pe] ++ by_tech ++ storage).

Definition capacity_by_energy_source_headings
    (built_energy_source : list energy_source) : list string :=
  ["load_zone"; "period"] ++ built_energy_source
  ++ ["hydro"; "batteries"; "fuel cells"].

Definition capacity_by_energy_source_values (m : Model)
    (built_proj : list project)
    (operate_proj_in_period : list (project * period))
    (built_energy_source : list energy_source) (z : load_zone) (pe : period)
    : res (list pyval) :=
  by_source ← for_each
    (fun s => VFloat <$>
       capacity_sum m built_proj operate_proj_in_period (source_in_zone m s z) pe)
    built_energy_source;
  storage ← storage_capacities m z pe;
  Ok ([VStr z; VInt pe] ++ by_source ++ storage).

(** ** The cost-breakdown report *)

(** [sum(e(pr) for pr in m.PH_PROJECTS if m.ph_load_zone[pr] == z)
     if hasattr(m, "BuildPumpedHydroMW") else 0.0] *)
Definition pumped_hydro_sum (m : Model) (z : load_zone)
    (e : gmap (project * period) Q -> project -> res Q) : res Q :=
  match m.(BuildPumpedHydroMW) with
  | Some build =>
      ps ← attr m.(PH_PROJECTS);
      sum <$> comprehension
        (fun pr => d ← attr m.(ph_load_zone); lz ← d.[pr];
                   Ok (bool_decide (lz = z)))
        (e build)
        ps
  | None => Ok 0
  end.

(** [m.X[z, pe] * m.c] for two attributes that may be missing. *)
Definition times_unit_cost (x : option (gmap (load_zone * period) Q))
    (c : option Q) (z : load_zone) (pe : period) : res Q :=
  d ← attr x; b ← d.[(z, pe)]; u ← attr c; Ok (b * u).

Section CostBreakdown.
Context `{Financials}.

Definition cost_breakdown_details (m : Model) (built_proj : list project)
    (built_tech : list gen_tech) (z : load_zone) (pe : period)
    : res (list pyval) :=
  let values := [VStr z; VInt pe] in
  (* capacity built, conventional plants *)
  added ← for_each
    (fun t => VFloat ∘ sum <$> comprehension
       (fun pr =>
          c ← tech_in_zone m t z pr;
          if c : bool
          then Ok (bool_decide (is_Some (m.(BuildProj) !! (pr, pe))))
          else Ok false)
       (fun pr => m.(BuildProj).[(pr, pe)])
       built_proj)
    built_tech;
  let values := values ++ added in
  (* capacity built, batteries, MW and MWh *)
  batteries ←
    match m.(BuildBattery) with
    | Some d =>
        b ← d.[(z, pe)];
        t ← attr m.(battery_min_discharge_time);
        mw ← div b t;
        mwh ← d.[(z, pe)];
        Ok [VFloat mw; VFloat mwh]
    | None => Ok [VFloat 0; VFloat 0]
    end;
  let values := values ++ batteries in
  (* capacity built, hydro *)
  hydro ← pumped_hydro_sum m z (fun build pr => build.[(pr, pe)]);
  let values := values ++ [VFloat hydro] in
  (* capacity built, hydrogen *)
  hydrogen ←
    match m.(BuildElectrolyzerMW) with
    | Some d =>
        a ← d.[(z, pe)];
        d ← attr m.(BuildLiquifierKgPerHour); b ← d.[(z, pe)];
        d ← attr m.(BuildLiquidHydrogenTankKg); c ← d.[(z, pe)];
        d ← attr m.(BuildFuelCellMW); e ← d.[(z, pe)];
        Ok [VFloat a; VFloat b; VFloat c; VFloat e]
    | None => Ok [VFloat 0; VFloat 0; VFloat 0; VFloat 0]
    end;
  let values := values ++ hydrogen in
  (* number of EVs and conventional vehicles *)
  vehicles ←
    match m.(ev_share) with
    | Some share =>
        d ← attr m.(n_all_vehicles); n ← d.[(z, pe)]; s ← share.[(z, pe)];
        let ev := n * s in
        d ← attr m.(n_all_vehicles); n ← d.[(z, pe)]; s ← share.[(z, pe)];
        Ok [VFloat ev; VFloat (n * (1 - s))]
    | None => Ok []
    end;
  let values := values ++ vehicles in
  (* capital investments: regular projects *)
  invested ← for_each
    (fun t => VFloat ∘ sum <$> comprehension
       (fun pr =>
          c ← tech_in_zone m t z pr;
          if c : bool
          then Ok (bool_decide ((pr, pe) ∈ m.(PROJECT_BUILDYEARS)))
          else Ok false)
       (fun pr =>
          b ← m.(BuildProj).[(pr, pe)];
          o ← m.(proj_overnight_cost).[(pr, pe)];
          c ← m.(proj_connect_cost_per_mw).[pr];
          Ok (b * (o + c)))
       built_proj)
    built_tech;
  let values := values ++ invested in
  (* batteries *)
  battery_cost ←
    match m.(battery_capital_cost_per_mwh_capacity),
          m.(battery_capital_cost_per_mwh_capacity_by_year) with
    | Some c, _ =>
        d ← attr m.(BuildBattery); b ← d.[(z, pe)]; Ok (b * c)
    | None, Some by_year =>
        d ← attr m.(BuildBattery); b ← d.[(z, pe)];
        c ← by_year.[pe]; Ok (b * c)
    | None, None => Ok 0
    end;
  let values := values ++ [VFloat battery_cost] in
  (* hydro *)
  hydro_cost ← pumped_hydro_sum m z
    (fun build pr =>
       b ← build.[(pr, pe)];
       d ← attr m.(ph_capital_cost_per_mw); c ← d.[pr];
       Ok (b * c));
  let values := values ++ [VFloat hydro_cost] in
  (* hydrogen *)
  hydrogen_cost ←
    if hasattr m.(BuildElectrolyzerMW) then
      a ← times_unit_cost m.(BuildElectrolyzerMW)
            m.(hydrogen_electrolyzer_capital_cost_per_mw) z pe;
      b ← times_unit_cost m.(BuildLiquifierKgPerHour)
            m.(hydrogen_liquifier_capital_cost_per_kg_per_hour) z pe;
      c ← times_unit_cost m.(BuildLiquidHydrogenTankKg)
            m.(liquid_hydrogen_tank_capital_cost_per_kg) z pe;
      e ← times_unit_cost m.(BuildFuelCellMW)
            m.(hydrogen_fuel_cell_capital_cost_per_mw) z pe;
      Ok [VFloat a; VFloat b; VFloat c; VFloat e]
    else Ok [VFloat 0; VFloat 0; VFloat 0; VFloat 0];
  let values := values ++ hydrogen_cost in
  (* _annual_ fuel expenditures *)
  fuel_cost ←
    match m.(REGIONAL_FUEL_MARKET) with
    | Some markets =>
        for_each
          (fun rfm =>
             d ← attr m.(RFM_P_SUPPLY_TIERS); tiers ← d.[(rfm, pe)];
             VFloat ∘ sum <$> for_each
               (fun rfm_st =>
                  d ← attr m.(FuelConsumptionByTier); q ← d.[rfm_st];
                  d ← attr m.(rfm_supply_tier_cost); c ← d.[rfm_st];
                  Ok (q * c))
               tiers)
          markets
    | None => Ok []
    end;
  let values := values ++ fuel_cost in
  (* costs to expand fuel markets *)
  expansion ←
    match m.(RFM_Fixed_Costs_Annual) with
    | Some d => c ← d.[pe]; Ok [VFloat c]
    | None => Ok []
    end;
  let values := values ++ expansion in
  (* total cost per period *)
  cost ← m.(SystemCostPerPeriod).[pe];
  total ← annualize_present_value_period_cost m pe cost;
  let values := values ++ [VFloat total] in
  (* total cost per year for transport *)
  transport ←
    match m.(ev_extra_annual_cost) with
    | Some d =>
        a ← d.[pe];
        d ← attr m.(ice_annual_fuel_cost); b ← d.[pe];
        Ok [VFloat a; VFloat b]
    | None => Ok []
    end;
  Ok (values ++ transport).
End CostBreakdown.

Definition cost_breakdown_headings (m : Model) (built_tech : list gen_tech)
    : list string :=
  ["load_zone"; "period"]
  ++ map (fun t => t +:+ "_mw_added") built_tech
  ++ ["batteries_mw_added"; "batteries_mwh_added"; "hydro_mw_added"]
  ++ ["h2_electrolyzer_mw_added"; "h2_liquifier_kg_per_hour_added";
      "liquid_h2_tank_kg_added"; "fuel_cell_mw_added"]
  ++ (if hasattr m.(ev_share) then ["ev_count"; "ice_count"] else [])
  ++ map (fun t => t +:+ "_overnight_cost") built_tech
  ++ ["batteries_overnight_cost"; "hydro_overnight_cost"]
  ++ ["h2_electrolyzer_overnight_cost"; "h2_liquifier_overnight_cost";
      "liquid_h2_tank_overnight_cost"; "fuel_cell_overnight_cost"]
  ++ match m.(REGIONAL_FUEL_MARKET) with
     | Some markets => map (fun rfm => rfm +:+ "_annual_cost") markets
     | None => []
     end
  ++ (if hasattr m.(RFM_Fixed_Costs_Annual)
      then ["fuel_market_expansion_annual_cost"] else [])
  ++ ["total_electricity_cost"]
  ++ (if hasattr m.(ev_extra_annual_cost)
      then ["ev_extra_capital_recovery"] else [])
  ++ (if hasattr m.(ice_annual_fuel_cost)
      then ["ice_annual_fuel_cost"] else []).

(** ** The fuel-market-tier activation report *)

Definition rfm_activate_headings : list string :=
  ["market"; "period"; "tier"; "activate"].

Definition rfm_activate_values (activate : gmap (market * period * tier) Q)
    (r : market) (p : period) (st : tier) : res (list pyval) :=
  a ← activate.[(r, p, st)];
  Ok [VStr r; VInt p; VStr st; VFloat a].

(** ** The Report Table Builder, [util.write_table] *)

Record Table := {
  output_file : string;
  headings : list string;
  rows : list (list pyval)
}.

(** Modelled from the spec: the iteration of [util.write_table], whose body
    is not part of this file's source.  "The builder produces the Cartesian
    product in a fixed, deterministic order (outer-to-inner matching the
    order dimensions were given)." *)
Fixpoint product {A} (dimensions : list (list A)) : list (list A) :=
  match dimensions with
  | [] => [[]]
  | d :: ds => x ← d; map (cons x) (product ds)
  end.

(** An element of an index set is a tuple of keys (a single key is a tuple
    of one); the row function receives the keys of all dimensions in a
    row, as the row functions of [write_results] expect them. *)
Definition unpack_elements (x : list (list pyval)) : list pyval := concat x.

(** Modelled from the spec: [util.write_table], whose body is not part of
    this file's source.  It "calls [row_fn] once per tuple to obtain the
    row's values", in the order of [product], and "performs no aggregation
    itself"; the header is taken as given. *)
Definition write_table (indexes : list (list (list pyval)))
    (output_file : string) (headings : list string)
    (values : list pyval -> res (list pyval)) : res Table :=
  rows ← for_each (fun x => values (unpack_elements x)) (product indexes);
  Ok {| output_file := output_file; headings := headings; rows := rows |}.

(** ** [write_results]

    The files written so far are threaded through the calls: a computation
    takes them and gives them back, longer by what it wrote, with its result
    or the exception that ended it. *)
Definition outputs (A : Type) : Type := list Table -> list Table * res A.

#[global] Instance outputs_ret : MRet outputs := fun A a files => (files, Ok a).
#[global] Instance outputs_bind : MBind outputs := fun A B f c files =>
  match c files with
  | (files', Ok a) => f a files'
  | (files', Raise e) => (files', Raise e)
  end.

(** A statement that writes no file. *)
Definition eval {A} (r : res A) : outputs A := fun files => (files, r).

(** A call of [util.write_table]: the file joins the outputs once all its
    rows are there. *)
Definition write (t : res Table) : outputs unit := fun files =>
  match t with
  | Ok table => (files ++ [table], Ok ())
  | Raise e => (files, Raise e)
  end.

(** [os.path.join(outputs_dir, name + tag + ".tsv")] *)
Definition tsv (outputs_dir name tag : string) : string :=
  outputs_dir +:+ "/" +:+ name +:+ tag +:+ ".tsv".

Definition zones (m : Model) : list (list pyval) :=
  map (fun z => [VStr z]) m.(LOAD_ZONES).
Definition keys (l : list Z) : list (list pyval) :=
  map (fun k => [VInt k]) l.

(** A row function of two arguments, a load zone and an integer key. *)
Definition by_zone_and_key (f : load_zone -> Z -> res (list pyval))
    (args : list pyval) : res (list pyval) :=
  match args with
  | [VStr z; VInt k] => f z k
  | _ => Raise TypeError
  end.

(** ["_" + m.options.scenario_name if m.options.scenario_name else ""] *)
Definition scenario_tag (m : Model) : string :=
  match m.(scenario_name) with
  | Some (String c s) => "_" +:+ String c s
  | _ => ""
  end.

Section WriteResults.
Context `{Financials}.

Definition write_results (m : Model) (outputs_dir : string) : outputs unit :=
  let tag := scenario_tag m in
  write (write_table [] (tsv outputs_dir "summary" tag)
           (summary_headers m) (fun _ => summary_values m));;
  avg_ts_scale ← eval (avg_ts_scale m);
  write (write_table [zones m; keys m.(TIMEPOINTS)]
           (tsv outputs_dir "energy_sources" tag)
           (energy_sources_headings m)
           (by_zone_and_key (energy_sources_values m avg_ts_scale)));;
  (* installed capacity information *)
  built_proj ← eval (built_proj m);
  operate_proj_in_period ← eval (operate_proj_in_period m);
  built_tech ← eval (built_tech m built_proj);
  built_energy_source ← eval (built_energy_source m built_tech);
  write (write_table [zones m; keys m.(PERIODS)]
           (tsv outputs_dir "capacity_by_technology" tag)
           (capacity_by_technology_headings built_tech)
           (by_zone_and_key
              (capacity_by_technology_values m built_proj
                 operate_proj_in_period built_tech)));;
  write (write_table [zones m; keys m.(PERIODS)]
           (tsv outputs_dir "capacity_by_energy_source" tag)
           (capacity_by_energy_source_headings built_energy_source)
           (by_zone_and_key
              (capacity_by_energy_source_values m built_proj
                 operate_proj_in_period built_energy_source)));;
  write (write_table [zones m; keys m.(PERIODS)]
           (tsv outputs_dir "cost_breakdown" tag)
           (cost_breakdown_headings m built_tech)
           (by_zone_and_key
              (cost_breakdown_details m built_proj built_tech)));;
  match m.(RFMSupplyTierActivate) with
  | Some activate =>
      tiers ← eval (attr m.(RFM_SUPPLY_TIERS));
      write (write_table
               [map (fun '(r, p, st) => [VStr r; VInt p; VStr st]) tiers]
               (tsv outputs_dir "rfm_activate" tag)
               rfm_activate_headings
               (fun args =>
                  match args with
                  | [VStr r; VInt p; VStr st] =>
                      rfm_activate_values activate r p st
                  | _ => Raise TypeError
                  end))
  | None => mret ()
  end.
End WriteResults.

(** ** The annualizer and the peak-day label over doubles

    Python computes with IEEE 754 doubles.  What the annualizer gives back
    when its result is multiplied by the factors, and on which side of the
    mean a timeseries falls, depend on the rounding.  The functions behind
    the two are embedded a second time here, on the kernel's binary64
    floats, with the attributes of [m] that they read; the values of the
    parameters are taken as doubles. *)
Module Doubles.

(** [a / b]: Python raises for a divisor that is zero, of either sign. *)
Definition div (a b : float) : res float :=
  if PrimFloat.eqb b 0 then Raise ZeroDivisionError else Ok (a / b)%float.

(** [sum(l)]: the terms are added from the left, starting from 0, each
    addition rounding (the builtin of Python 2 and of Python 3 up to 3.11;
    later versions compensate the rounding of a sum of floats). *)
Definition sum (l : list float) : float := foldl PrimFloat.add 0%float l.

(** [len(l)] as the divisor of a float: the double of the same value
    (exact below 2^53). *)
Fixpoint of_nat (n : nat) : float :=
  match n with
  | O => 0
  | S n => of_nat n + 1
  end%float.

(** The two factors of [switch_mod.financials], on doubles. *)
Class Financials := {
  uniform_series_to_present_value : float -> float -> float;
  future_to_present_value : float -> float -> float
}.

Record Model := {
  discount_rate : float;
  base_financial_year : float;
  period_length_years : gmap period float;
  period_start : gmap period float;
  TIMESERIES : list timeseries;
  ts_scale_to_year : gmap timeseries float;
  tp_ts : gmap timepoint timeseries
}.

Section Annualizer.
Context `{Financials}.

Definition discount_factor (m : Model) (p : period) : res float :=
  n ← m.(period_length_years).[p];
  s ← m.(period_start).[p];
  Ok (uniform_series_to_present_value m.(discount_rate) n
      * future_to_present_value m.(discount_rate)
          (s - m.(base_financial_year)))%float.

Definition annualize_present_value_period_cost
    (m : Model) (p : period) (val : float) : res float :=
  f ← discount_factor m p;
  div val f.
End Annualizer.

(** [float(sum(m.ts_scale_to_year[ts] for ts in m.TIMESERIES)) / len(m.TIMESERIES)] *)
Definition avg_ts_scale (m : Model) : res float :=
  scales ← for_each (fun ts => m.(ts_scale_to_year).[ts]) m.(TIMESERIES);
  div (sum scales) (of_nat (length m.(TIMESERIES))).

(** ['peak' if m.ts_scale_to_year[m.tp_ts[t]] < avg_ts_scale else 'typical'] *)
Definition peak_day (m : Model) (avg : float) (t : timepoint) : res string :=
  ts ← m.(tp_ts).[t];
  scale ← m.(ts_scale_to_year).[ts];
  Ok (if PrimFloat.ltb scale avg then "peak" else "typical")%string.

End Doubles.

(** ** [write_tab], of [python_utility_scripts/get_switch_pyomo_input_tables.py] *)

Definition tab : Ascii.ascii := Ascii.ascii_of_nat 9.
Definition newline : Ascii.ascii := Ascii.ascii_of_nat 10.

(** [sep.join(l)] for a separator of one character. *)
Definition join (sep : Ascii.ascii) (l : list string) : string :=
  String.concat (String sep "") l.

(** [s.split(sep)] for a separator of one character. *)
Fixpoint split (sep : Ascii.ascii) (s : string) : list string :=
  match s with
  | EmptyString => [EmptyString]
  | String a s' =>
      if Ascii.eqb a sep then EmptyString :: split sep s'
      else match split sep s' with
           | h :: t => String a h :: t
           | [] => [String a EmptyString]
           end
  end.

(** The character [c] occurs in [s]. *)
Fixpoint occurs (c : Ascii.ascii) (s : string) : bool :=
  match s with
  | EmptyString => false
  | String a s' => Ascii.eqb a c || occurs c s'
  end.

Section WriteTab.
(** A cell of a database row is [None] or a value, written with [str]. *)
Context {A : Type} (str_cell : A -> string).

(** [[e if e is not None else '.' for e in row]], through [map(str, line)] *)
Definition line_of (row : list (option A)) : list string :=
  map (fun e => match e with Some v => str_cell v | None => "."%string end) row.

(** The name of the file and the text written to it. *)
Definition write_tab (fname : string) (headers : list string)
    (cursor : list (list (option A))) : string * string :=
  (fname +:+ ".tab",
   foldl (fun f row => f +:+ (join tab (line_of row) +:+ String newline ""))
     (join tab headers +:+ String newline "") cursor).
End WriteTab.

(** The text of lines that each end with a newline. *)
Definition unlines (ls : list string) : string :=
  foldr (fun l text => l +:+ String newline text)%string ""%string ls.

(** ** A small solved model

    Two load zones, one period, two timepoints in two timeseries; a steam
    plant burning two fuels in the ratio 3:1 that dispatches 100 at the
    first timepoint and [late_dispatch] at the second, where it burns
    nothing; a wind farm that is built but never dispatched; a load of
    [demand] in every zone at every timepoint.  No optional subsystem is
    present, apart from the two attributes of the vehicle fleet that the
    arguments give. *)

(** Modelled from the spec: the two factors of [switch_mod.financials],
    whose bodies are not part of this file's source, by "the standard
    finite-period annuity/compounding formulas", with the "limit:
    uniform-series factor → period_length_years when rate → 0".  The model
    has no real powers: a number of years is taken down to a whole
    number. *)
#[local] Instance standard_financials : Financials := {|
  uniform_series_to_present_value dr t :=
    if Qeq_bool dr 0 then t else (1 - Qpower (1 + dr) (- Qfloor t)) / dr;
  future_to_present_value dr t := Qpower (1 + dr) (- Qfloor t)
|}.

Definition everywhere (x : Q) : gmap (load_zone * timepoint) Q :=
  list_to_map (map (fun zt => (zt, x))
    [("north", 1%Z); ("north", 2%Z); ("south", 1%Z); ("south", 2%Z)])%string.

Definition example_model (demand late_dispatch : Q)
    (ev_extra ice : option (gmap period Q)) : Model := {|
  scenario_name := Some "base"%string;
  PERIODS := [2020%Z];
  TIMEPOINTS := [1%Z; 2%Z];
  TIMESERIES := ["winter_peak"; "average_day"]%string;
  LOAD_ZONES := ["north"; "south"]%string;
  PROJECTS := ["plant"; "wind_farm"]%string;
  FUELS := ["diesel"; "lng"]%string;
  NON_FUEL_ENERGY_SOURCES := ["wind"]%string;
  PROJ_DISPATCH_POINTS :=
    [("plant", 1%Z); ("plant", 2%Z); ("wind_farm", 1%Z); ("wind_farm", 2%Z)]%string;
  PROJECT_BUILDYEARS := [("plant", 2020%Z); ("wind_farm", 2020%Z)]%string;
  PERIOD_TPS := {[ 2020%Z := [1%Z; 2%Z] ]};
  G_FUELS := {[ "steam"%string := ["lng"; "diesel"]%string ]};
  PROJECTS_BY_FUEL :=
    <[ "diesel"%string := ["plant"%string] ]> {[ "lng"%string := ["plant"%string] ]};
  PROJECTS_BY_NON_FUEL_ENERGY_SOURCE := {[ "wind"%string := ["wind_farm"%string] ]};
  LZ_Energy_Components_Produce := ["LZ_NetDispatch"%string];
  LZ_Energy_Components_Consume := ["lz_demand_mw"%string];
  discount_rate := 1 # 10;
  base_financial_year := 2018;
  period_length_years := {[ 2020%Z := 2 ]};
  period_start := {[ 2020%Z := 2020 ]};
  bring_timepoint_costs_to_base_year := <[ 1%Z := 3 # 2 ]> {[ 2%Z := 3 # 2 ]};
  tp_period := <[ 1%Z := 2020%Z ]> {[ 2%Z := 2020%Z ]};
  tp_timestamp :=
    <[ 1%Z := "2020011518"%string ]> {[ 2%Z := "2020061512"%string ]};
  tp_ts :=
    <[ 1%Z := "winter_peak"%string ]> {[ 2%Z := "average_day"%string ]};
  ts_scale_to_year :=
    <[ "winter_peak"%string := 10 ]> {[ "average_day"%string := 355 ]};
  proj_gen_tech :=
    <[ "plant"%string := "steam"%string ]> {[ "wind_farm"%string := "turbine"%string ]};
  proj_load_zone :=
    <[ "plant"%string := "north"%string ]> {[ "wind_farm"%string := "south"%string ]};
  proj_overnight_cost :=
    <[ ("plant"%string, 2020%Z) := 1200 ]> {[ ("wind_farm"%string, 2020%Z) := 1800 ]};
  proj_connect_cost_per_mw :=
    <[ "plant"%string := 50 ]> {[ "wind_farm"%string := 80 ]};
  g_uses_fuel := <[ "steam"%string := true ]> {[ "turbine"%string := false ]};
  g_energy_source :=
    <[ "steam"%string := "multiple"%string ]> {[ "turbine"%string := "wind"%string ]};
  SystemCost := 500000;
  SystemCostPerPeriod := {[ 2020%Z := 500000 ]};
  DispatchProj :=
    <[ ("plant"%string, 1%Z) := 100 ]> (<[ ("plant"%string, 2%Z) := late_dispatch ]>
    (<[ ("wind_farm"%string, 1%Z) := 0 ]> {[ ("wind_farm"%string, 2%Z) := 0 ]}));
  DispatchUpperLimit :=
    <[ ("wind_farm"%string, 1%Z) := 20 ]> {[ ("wind_farm"%string, 2%Z) := 35 ]};
  ProjFuelUseRate :=
    <[ ("plant"%string, 1%Z, "diesel"%string) := 750 ]>
    (<[ ("plant"%string, 1%Z, "lng"%string) := 250 ]>
    (<[ ("plant"%string, 2%Z, "diesel"%string) := 0 ]>
    {[ ("plant"%string, 2%Z, "lng"%string) := 0 ]}));
  ProjCapacity :=
    <[ ("plant"%string, 2020%Z) := 120 ]> {[ ("wind_farm"%string, 2020%Z) := 50 ]};
  BuildProj :=
    <[ ("plant"%string, 2020%Z) := 120 ]> {[ ("wind_farm"%string, 2020%Z) := 50 ]};
  Energy_Balance :=
    <[ ("north"%string, 1%Z) := 1%positive ]> (<[ ("north"%string, 2%Z) := 2%positive ]>
    (<[ ("south"%string, 1%Z) := 3%positive ]> {[ ("south"%string, 2%Z) := 4%positive ]}));
  dual := {[ 1%positive := 90 ]};
  components :=
    <[ "lz_demand_mw"%string := everywhere demand ]>
    {[ "LZ_NetDispatch"%string := everywhere 50 ]};
  demand_response_max_share := None;
  RPSEligiblePower := None;
  RPSTotalPower := None;
  RPSFuelPower := None;
  Battery_Capacity := None;
  battery_max_discharge := None;
  battery_min_discharge_time := None;
  Pumped_Hydro_Capacity_MW := None;
  FuelCellCapacityMW := None;
  BuildBattery := None;
  battery_capital_cost_per_mwh_capacity := None;
  battery_capital_cost_per_mwh_capacity_by_year := None;
  BuildPumpedHydroMW := None;
  PH_PROJECTS := None;
  ph_load_zone := None;
  ph_capital_cost_per_mw := None;
  BuildElectrolyzerMW := None;
  BuildLiquifierKgPerHour := None;
  BuildLiquidHydrogenTankKg := None;
  BuildFuelCellMW := None;
  hydrogen_electrolyzer_capital_cost_per_mw := None;
  hydrogen_liquifier_capital_cost_per_kg_per_hour := None;
  liquid_hydrogen_tank_capital_cost_per_kg := None;
  hydrogen_fuel_cell_capital_cost_per_mw := None;
  ev_share := None;
  n_all_vehicles := None;
  ev_extra_annual_cost := ev_extra;
  ice_annual_fuel_cost := ice;
  REGIONAL_FUEL_MARKET := None;
  RFM_P_SUPPLY_TIERS := None;
  RFM_SUPPLY_TIERS := None;
  FuelConsumptionByTier := None;
  rfm_supply_tier_cost := None;
  RFM_Fixed_Costs_Annual := None;
  RFMSupplyTierActivate := None
|}.

(** The small model with its timeseries, the fuels of its technologies, its
    named components and the attributes of its vehicle fleet replaced. *)
Definition example_variant (timeseries_set : list timeseries)
    (fuels_of : gmap gen_tech (list fuel))
    (named : gmap string (gmap (load_zone * timepoint) Q))
    (share vehicles : option (gmap (load_zone * period) Q)) : Model :=
  let base := example_model 40 0 None None in
  {| scenario_name := base.(scenario_name);
     PERIODS := base.(PERIODS);
     TIMEPOINTS := base.(TIMEPOINTS);
     TIMESERIES := timeseries_set;
     LOAD_ZONES := base.(LOAD_ZONES);
     PROJECTS := base.(PROJECTS);
     FUELS := base.(FUELS);
     NON_FUEL_ENERGY_SOURCES := base.(NON_FUEL_ENERGY_SOURCES);
     PROJ_DISPATCH_POINTS := base.(PROJ_DISPATCH_POINTS);
     PROJECT_BUILDYEARS := base.(PROJECT_BUILDYEARS);
     PERIOD_TPS := base.(PERIOD_TPS);
     G_FUELS := fuels_of;
     PROJECTS_BY_FUEL := base.(PROJECTS_BY_FUEL);
     PROJECTS_BY_NON_FUEL_ENERGY_SOURCE := base.(PROJECTS_BY_NON_FUEL_ENERGY_SOURCE);
     LZ_Energy_Components_Produce := base.(LZ_Energy_Components_Produce);
     LZ_Energy_Components_Consume := base.(LZ_Energy_Components_Consume);
     discount_rate := base.(discount_rate);
     base_financial_year := base.(base_financial_year);
     period_length_years := base.(period_length_years);
     period_start := base.(period_start);
     bring_timepoint_costs_to_base_year := base.(bring_timepoint_costs_to_base_year);
     tp_period := base.(tp_period);
     tp_timestamp := base.(tp_timestamp);
     tp_ts := base.(tp_ts);
     ts_scale_to_year := base.(ts_scale_to_year);
     proj_gen_tech := base.(proj_gen_tech);
     proj_load_zone := base.(proj_load_zone);
     proj_overnight_cost := base.(proj_overnight_cost);
     proj_connect_cost_per_mw := base.(proj_connect_cost_per_mw);
     g_uses_fuel := base.(g_uses_fuel);
     g_energy_source := base.(g_energy_source);
     SystemCost := base.(SystemCost);
     SystemCostPerPeriod := base.(SystemCostPerPeriod);
     DispatchProj := base.(DispatchProj);
     DispatchUpperLimit := base.(DispatchUpperLimit);
     ProjFuelUseRate := base.(ProjFuelUseRate);
     ProjCapacity := base.(ProjCapacity);
     BuildProj := base.(BuildProj);
     Energy_Balance := base.(Energy_Balance);
     dual := base.(dual);
     components := named;
     demand_response_max_share := base.(demand_response_max_share);
     RPSEligiblePower := base.(RPSEligiblePower);
     RPSTotalPower := base.(RPSTotalPower);
     RPSFuelPower := base.(RPSFuelPower);
     Battery_Capacity := base.(Battery_Capacity);
     battery_max_discharge := base.(battery_max_discharge);
     battery_min_discharge_time := base.(battery_min_discharge_time);
     Pumped_Hydro_Capacity_MW := base.(Pumped_Hydro_Capacity_MW);
     FuelCellCapacityMW := base.(FuelCellCapacityMW);
     BuildBattery := base.(BuildBattery);
     battery_capital_cost_per_mwh_capacity := base.(battery_capital_cost_per_mwh_capacity);
     battery_capital_cost_per_mwh_capacity_by_year := base.(battery_capital_cost_per_mwh_capacity_by_year);
     BuildPumpedHydroMW := base.(BuildPumpedHydroMW);
     PH_PROJECTS := base.(PH_PROJECTS);
     ph_load_zone := base.(ph_load_zone);
     ph_capital_cost_per_mw := base.(ph_capital_cost_per_mw);
     BuildElectrolyzerMW := base.(BuildElectrolyzerMW);
     BuildLiquifierKgPerHour := base.(BuildLiquifierKgPerHour);
     BuildLiquidHydrogenTankKg := base.(BuildLiquidHydrogenTankKg);
     BuildFuelCellMW := base.(BuildFuelCellMW);
     hydrogen_electrolyzer_capital_cost_per_mw := base.(hydrogen_electrolyzer_capital_cost_per_mw);
     hydrogen_liquifier_capital_cost_per_kg_per_hour := base.(hydrogen_liquifier_capital_cost_per_kg_per_hour);
     liquid_hydrogen_tank_capital_cost_per_kg := base.(liquid_hydrogen_tank_capital_cost_per_kg);
     hydrogen_fuel_cell_capital_cost_per_mw := base.(hydrogen_fuel_cell_capital_cost_per_mw);
     ev_share := share;
     n_all_vehicles := vehicles;
     ev_extra_annual_cost := base.(ev_extra_annual_cost);
     ice_annual_fuel_cost := base.(ice_annual_fuel_cost);
     REGIONAL_FUEL_MARKET := base.(REGIONAL_FUEL_MARKET);
     RFM_P_SUPPLY_TIERS := base.(RFM_P_SUPPLY_TIERS);
     RFM_SUPPLY_TIERS := base.(RFM_SUPPLY_TIERS);
     FuelConsumptionByTier := base.(FuelConsumptionByTier);
     rfm_supply_tier_cost := base.(rfm_supply_tier_cost);
     RFM_Fixed_Costs_Annual := base.(RFM_Fixed_Costs_Annual);
     RFMSupplyTierActivate := base.(RFMSupplyTierActivate) |}.

(** ** Two models over doubles *)

(** Modelled from the spec: the two factors of [switch_mod.financials] at a
    discount rate of zero, the one rate at which they take no power: the
    "limit: uniform-series factor → period_length_years when rate → 0",
    and a payment of any year is worth its amount. *)
#[local] Instance undiscounted : Doubles.Financials := {|
  Doubles.uniform_series_to_present_value dr t := t;
  Doubles.future_to_present_value dr t := 1%float
|}.

Definition months : list timeseries :=
  ["jan"; "feb"; "mar"; "apr"; "may"; "jun";
   "jul"; "aug"; "sep"; "oct"; "nov"; "dec"]%string.

(** One period of fifteen years that starts in the base year, at a discount
    rate of zero; a representative day for each month, each standing for
    365/12 days, with one timepoint a day. *)
Definition monthly_model : Doubles.Model := {|
  Doubles.discount_rate := 0%float;
  Doubles.base_financial_year := 2020%float;
  Doubles.period_length_years := {[ 2020%Z := 15%float ]};
  Doubles.period_start := {[ 2020%Z := 2020%float ]};
  Doubles.TIMESERIES := months;
  Doubles.ts_scale_to_year :=
    list_to_map (map (fun ts => (ts, (365 / 12)%float)) months);
  Doubles.tp_ts := list_to_map (imap (fun i ts => (Z.of_nat (S i), ts)) months)
|}.


(** ** Notions of the specification *)

(** The project dispatched more than 0.001 at some timepoint of the period. *)
Definition dispatched_in_period (m : Model) (pr : project) (pe : period) : Prop :=
  exists tp d,
    (pr, tp) ∈ m.(PROJ_DISPATCH_POINTS) /\ m.(tp_period) !! tp = Some pe
    /\ m.(DispatchProj) !! (pr, tp) = Some d /\ threshold < d.

(** The number of tuples of a product: the product of the sizes. *)
Definition product_size {A} (dimensions : list (list A)) : nat :=
  foldr (fun d n => (length d * n)%nat) 1%nat dimensions.

(** A tuple of the product is named by the positions of its components in
    their dimensions; [select] is the tuple at positions [ixs], [rank] its
    place in the lexicographic order where the first dimension varies
    slowest. *)
Fixpoint select {A} (ixs : list nat) (dimensions : list (list A))
    : option (list A) :=
  match ixs, dimensions with
  | [], [] => Some []
  | i :: ixs, d :: ds => x ← d !! i; xs ← select ixs ds; Some (x :: xs)
  | _, _ => None
  end.

Fixpoint rank {A} (ixs : list nat) (dimensions : list (list A)) : nat :=
  match ixs, dimensions with
  | i :: ixs, d :: ds => (i * product_size ds + rank ixs ds)%nat
  | _, _ => 0%nat
  end.

Definition positions {A} (ixs : list nat) (dimensions : list (list A)) : Prop :=
  Forall2 (fun i d => (i < length d)%nat) ixs dimensions.

Fixpoint lex_lt (ixs jxs : list nat) : Prop :=
  match ixs, jxs with
  | i :: ixs, j :: jxs => (i < j)%nat \/ (i = j /\ lex_lt ixs jxs)
  | _, _ => False
  end.

(** [has_suffix s x]: the string [x] ends with [s]. *)
Fixpoint has_suffix (s x : string) : bool :=
  String.eqb s x
  || match x with
     | String _ x' => has_suffix s x'
     | EmptyString => false
     end.

(** The files of a complete pass, in the order they are written. *)
Definition report_files (m : Model) (outputs_dir : string) : list string :=
  map (fun name => tsv outputs_dir name (scenario_tag m))
    (["summary"; "energy_sources"; "capacity_by_technology";
      "capacity_by_energy_source"; "cost_breakdown"]%string
     ++ if hasattr m.(RFMSupplyTierActivate) then ["rfm_activate"%string] else []).

(** The table [t] is the result of one of the calls of [util.write_table]
    in [write_results]. *)
Definition written_by_write_results `{Financials} (m : Model)
    (outputs_dir : string) (t : Table) : Prop :=
  write_table [] (tsv outputs_dir "summary" (scenario_tag m))
    (summary_headers m) (fun _ => summary_values m) = Ok t
  \/ (exists avg,
        avg_ts_scale m = Ok avg
        /\ write_table [zones m; keys m.(TIMEPOINTS)]
             (tsv outputs_dir "energy_sources" (scenario_tag m))
             (energy_sources_headings m)
             (by_zone_and_key (energy_sources_values m avg)) = Ok t)
  \/ (exists bp ops bt,
        built_proj m = Ok bp /\ operate_proj_in_period m = Ok ops
        /\ built_tech m bp = Ok bt
        /\ write_table [zones m; keys m.(PERIODS)]
             (tsv outputs_dir "capacity_by_technology" (scenario_tag m))
             (capacity_by_technology_headings bt)
             (by_zone_and_key (capacity_by_technology_values m bp ops bt)) = Ok t)
  \/ (exists bp ops bt bes,
        built_proj m = Ok bp /\ operate_proj_in_period m = Ok ops
        /\ built_tech m bp = Ok bt /\ built_energy_source m bt = Ok bes
        /\ write_table [zones m; keys m.(PERIODS)]
             (tsv outputs_dir "capacity_by_energy_source" (scenario_tag m))
             (capacity_by_energy_source_headings bes)
             (by_zone_and_key (capacity_by_energy_source_values m bp ops bes))
           = Ok t)
  \/ (exists bp bt,
        built_proj m = Ok bp /\ built_tech m bp = Ok bt
        /\ write_table [zones m; keys m.(PERIODS)]
             (tsv outputs_dir "cost_breakdown" (scenario_tag m))
             (cost_breakdown_headings m bt)
             (by_zone_and_key (cost_breakdown_details m bp bt)) = Ok t)
  \/ (exists activate tiers,
        m.(RFMSupplyTierActivate) = Some activate
        /\ m.(RFM_SUPPLY_TIERS) = Some tiers
        /\ write_table [map (fun '(r, p, st) => [VStr r; VInt p; VStr st]) tiers]
             (tsv outputs_dir "rfm_activate" (scenario_tag m))
             rfm_activate_headings
             (fun args =>
                match args with
                | [VStr r; VInt p; VStr st] => rfm_activate_values activate r p st
                | _ => Raise TypeError
                end) = Ok t).

(** The names of the reports with their numbers of rows. *)
Definition report_shapes (m : Model) : list (string * nat) :=
  [("summary"%string, 1%nat);
   ("energy_sources"%string, (length m.(LOAD_ZONES) * length m.(TIMEPOINTS))%nat);
   ("capacity_by_technology"%string,
    (length m.(LOAD_ZONES) * length m.(PERIODS))%nat);
   ("capacity_by_energy_source"%string,
    (length m.(LOAD_ZONES) * length m.(PERIODS))%nat);
   ("cost_breakdown"%string, (length m.(LOAD_ZONES) * length m.(PERIODS))%nat)]
  ++ match m.(RFM_SUPPLY_TIERS) with
     | Some tiers => [("rfm_activate"%string, length tiers)]
     | None => []
     end.

(** The elements of [l] that the condition of a comprehension lets
    through. *)
Fixpoint selected_by {A} (cond : A -> res bool) (l : list A) : list A :=
  match l with
  | [] => []
  | x :: l =>
      match cond x with
      | Ok true => x :: selected_by cond l
      | _ => selected_by cond l
      end
  end.

(** [v] is what the project counts for in a capacity column of the period:
    its capacity where it dispatched in the period, 0.0 where it did
    not. *)
Definition counted (m : Model) (pe : period) (pr : project) (v : Q) : Prop :=
  (dispatched_in_period m pr pe /\ m.(ProjCapacity) !! (pr, pe) = Some v)
  \/ (~ dispatched_in_period m pr pe /\ v = 0).

(** * Properties *)

(** ** Exceptions and sums *)

Lemma bind_Ok {A B} (f : A -> res B) (r : res A) (b : B) :
  (r ≫= f) = Ok b -> exists a, r = Ok a /\ f a = Ok b.
Proof. destruct r as [a|e]; simpl; [eauto | discriminate]. Qed.

Lemma fmap_Ok {A B} (f : A -> B) (r : res A) (b : B) :
  f <$> r = Ok b -> exists a, r = Ok a /\ b = f a.
Proof. destruct r as [a|e]; simpl; [|discriminate]. intros [= <-]. eauto. Qed.

(** Takes a successful sequence of binds apart, one hypothesis per step. *)
Ltac inv_Ok :=
  repeat match goal with
  | H : (?r ≫= _) = Ok _ |- _ =>
      let a := fresh "v" in
      let E := fresh "E" in
      apply bind_Ok in H as (a & E & H)
  | H : _ <$> ?r = Ok _ |- _ =>
      let a := fresh "v" in
      let E := fresh "E" in
      apply fmap_Ok in H as (a & E & H)
  | H : Ok _ = Ok _ |- _ => injection H as H
  | H : Raise _ = Ok _ |- _ => discriminate H
  end.

Lemma subscript_Ok `{Countable K} {V} (d : gmap K V) (k : K) (v : V) :
  d.[k] = Ok v <-> d !! k = Some v.
Proof. unfold subscript. destruct (d !! k); split; congruence. Qed.

Lemma div_Ok (a b : Q) : ~ b == 0 -> div a b = Ok (a / b).
Proof.
  intros Hb. unfold div. destruct (Qeq_bool b 0) eqn:E; [|done].
  apply Qeq_bool_iff in E. contradiction.
Qed.

Lemma div_zero (a b : Q) : b == 0 -> div a b = Raise ZeroDivisionError.
Proof. intros Hb. unfold div. apply Qeq_bool_iff in Hb. by rewrite Hb. Qed.

Lemma foldl_Qplus (a : Q) (l : list Q) : foldl Qplus a l == a + sum l.
Proof.
  unfold sum. revert a. induction l as [|x l IH]; intros a; simpl.
  - ring.
  - rewrite (IH (a + x)), (IH (0 + x)). ring.
Qed.

Lemma sum_cons (x : Q) (l : list Q) : sum (x :: l) == x + sum l.
Proof. unfold sum at 1. simpl. rewrite foldl_Qplus. ring. Qed.

Lemma sum_shares (d total : Q) (rates : list Q) :
  sum (map (fun r => d * r / total) rates) == d * sum rates / total.
Proof.
  induction rates as [|r rates IH]; simpl.
  - unfold sum. simpl. unfold Qdiv. ring.
  - rewrite !sum_cons, IH. unfold Qdiv. ring.
Qed.

Lemma for_each_Forall2 {A B} (e : A -> res B) (l : list A) (vs : list B) :
  for_each e l = Ok vs <-> Forall2 (fun x v => e x = Ok v) l vs.
Proof.
  revert vs. induction l as [|x l IH]; intros vs; simpl.
  - split; [intros [= <-]; constructor | by inversion 1].
  - split.
    + intros Hx. inv_Ok. subst vs. constructor; [done | by apply IH].
    + inversion 1 as [|? v ? vs' Hx Hl]; subst.
      apply IH in Hl. by rewrite Hx, Hl.
Qed.

Lemma for_each_length {A B} (e : A -> res B) (l : list A) (vs : list B) :
  for_each e l = Ok vs -> length vs = length l.
Proof. intros Hl. apply for_each_Forall2 in Hl. symmetry. by eapply Forall2_length. Qed.

Lemma for_each_total {A B} (e : A -> res B) (l : list A) :
  (forall x, x ∈ l -> exists v, e x = Ok v) -> exists vs, for_each e l = Ok vs.
Proof.
  induction l as [|x l IH]; intros He; simpl; [eauto|].
  destruct (He x) as [v ->]; [left|].
  destruct IH as [vs ->]; [intros y Hy; apply He; by right|].
  simpl. eauto.
Qed.

(** ** The Fuel-Proportional Allocator *)

Lemma total_fuel_use_rate_Ok (m : Model) (proj : project) (tp : timepoint)
    (total : Q) :
  total_fuel_use_rate m proj tp = Ok total ->
  exists g fs rates,
    m.(proj_gen_tech) !! proj = Some g /\ m.(G_FUELS) !! g = Some fs
    /\ Forall2 (fun f r => m.(ProjFuelUseRate) !! (proj, tp, f) = Some r) fs rates
    /\ total = sum rates.
Proof.
  unfold total_fuel_use_rate. intros Ht. inv_Ok.
  match goal with
  | Hg : _.[proj] = Ok ?g, Hfs : _.[?g] = Ok ?fs,
    Hr : for_each _ ?fs = Ok ?rates |- _ =>
      exists g, fs, rates; apply subscript_Ok in Hg, Hfs;
      apply for_each_Forall2 in Hr
  end.
  repeat split; [done | done | | done].
  eapply Forall2_impl; [eassumption|]. intros f r. apply subscript_Ok.
Qed.

Lemma DispatchProjByFuel_share (m : Model) (proj : project) (tp : timepoint)
    (f : fuel) (d r total : Q) :
  m.(DispatchProj) !! (proj, tp) = Some d -> ~ d == 0 ->
  m.(ProjFuelUseRate) !! (proj, tp, f) = Some r ->
  total_fuel_use_rate m proj tp = Ok total -> ~ total == 0 ->
  DispatchProjByFuel m proj tp f = Ok (d * r / total).
Proof.
  intros Hd Hd0 Hr Ht Ht0. unfold DispatchProjByFuel. rewrite Hd.
  destruct (Qeq_bool d 0) eqn:E; [apply Qeq_bool_iff in E; contradiction|].
  apply subscript_Ok in Hr. rewrite Hr, Ht. simpl.
  by rewrite div_Ok.
Qed.

(** C1.  When a project's dispatch at a timepoint is nonzero and the use
    rates of its eligible fuels sum to a nonzero total, the dispatch
    allocated to a fuel is [dispatch * use_rate[fuel] / total], and the
    allocations over the eligible fuels sum to the dispatch. *)
Theorem DispatchProjByFuel_proportional (m : Model) (proj : project)
    (tp : timepoint) (d total : Q) :
  m.(DispatchProj) !! (proj, tp) = Some d -> ~ d == 0 ->
  total_fuel_use_rate m proj tp = Ok total -> ~ total == 0 ->
  (forall f r, m.(ProjFuelUseRate) !! (proj, tp, f) = Some r ->
     DispatchProjByFuel m proj tp f = Ok (d * r / total))
  /\ exists g fs shares,
       m.(proj_gen_tech) !! proj = Some g /\ m.(G_FUELS) !! g = Some fs
       /\ for_each (DispatchProjByFuel m proj tp) fs = Ok shares
       /\ sum shares == d.
Proof.
  intros Hd Hd0 Ht Ht0. split.
  - intros f r Hr. by apply DispatchProjByFuel_share.
  - destruct (total_fuel_use_rate_Ok _ _ _ _ Ht) as (g & fs & rates & Hg & Hfs & Hrates & ->).
    exists g, fs, (map (fun r => d * r / sum rates) rates).
    repeat split; [done | done | |].
    + apply for_each_Forall2, Forall2_fmap_r.
      eapply Forall2_impl; [eassumption|]. intros f r Hr. simpl.
      by apply DispatchProjByFuel_share.
    + rewrite sum_shares. field. done.
Qed.

Lemma DispatchProjByFuel_proportional_example :
  DispatchProjByFuel (example_model 40 0 None None) "plant" 1%Z "diesel"
    = Ok (100 * 750 / sum [250; 750])
  /\ exists shares,
       for_each (DispatchProjByFuel (example_model 40 0 None None) "plant" 1%Z)
         ["lng"; "diesel"]%string = Ok shares
       /\ sum shares == 100.
Proof.
  destruct (DispatchProjByFuel_proportional (example_model 40 0 None None)
              "plant" 1%Z 100 (sum [250; 750])) as [Hshare Hsum];
    [reflexivity | discriminate | reflexivity | discriminate |].
  split.
  - apply Hshare. reflexivity.
  - destruct Hsum as (g & fs & shares & Hg & Hfs & Hshares & Htotal).
    exists shares. vm_compute in Hg. injection Hg as <-.
    vm_compute in Hfs. injection Hfs as <-. done.
Defined.

(** C2.  When the dispatch of a project at a timepoint is 0.0, or the
    pair is not an index of the dispatch map, the allocation to any fuel is
    0.0, whatever the use rates are: neither they nor the eligible fuels
    are read, and nothing is divided. *)
Theorem DispatchProjByFuel_zero_dispatch (m : Model) (proj : project)
    (tp : timepoint) (f : fuel) :
  m.(DispatchProj) !! (proj, tp) = None
  \/ (exists d, m.(DispatchProj) !! (proj, tp) = Some d /\ d == 0) ->
  DispatchProjByFuel m proj tp f = Ok 0.
Proof.
  unfold DispatchProjByFuel. intros [-> | (d & -> & Hd)]; [done|].
  apply Qeq_bool_iff in Hd. by rewrite Hd.
Qed.

Lemma DispatchProjByFuel_zero_dispatch_example :
  DispatchProjByFuel (example_model 40 0 None None) "plant" 2%Z "lng" = Ok 0
  /\ DispatchProjByFuel (example_model 40 0 None None) "plant" 7%Z "coal" = Ok 0.
Proof.
  split.
  - apply DispatchProjByFuel_zero_dispatch. right. exists 0. split; reflexivity.
  - apply DispatchProjByFuel_zero_dispatch. left. reflexivity.
Defined.

(** C3.  When the dispatch is nonzero and the use rates of the project's
    eligible fuels sum to zero, the allocation is 0.0: the division fault
    is caught, not raised. *)
Theorem DispatchProjByFuel_zero_total (m : Model) (proj : project)
    (tp : timepoint) (f : fuel) (d r total : Q) :
  m.(DispatchProj) !! (proj, tp) = Some d -> ~ d == 0 ->
  m.(ProjFuelUseRate) !! (proj, tp, f) = Some r ->
  total_fuel_use_rate m proj tp = Ok total -> total == 0 ->
  DispatchProjByFuel m proj tp f = Ok 0.
Proof.
  intros Hd Hd0 Hr Ht Ht0. unfold DispatchProjByFuel. rewrite Hd.
  destruct (Qeq_bool d 0) eqn:E; [apply Qeq_bool_iff in E; contradiction|].
  apply subscript_Ok in Hr. rewrite Hr, Ht. simpl.
  by rewrite div_zero.
Qed.

Lemma DispatchProjByFuel_zero_total_example :
  DispatchProjByFuel (example_model 40 5 None None) "plant" 2%Z "lng" = Ok 0.
Proof.
  apply (DispatchProjByFuel_zero_total (example_model 40 5 None None)
           "plant" 2%Z "lng" 5 0 (sum [0; 0]));
    [reflexivity | discriminate | reflexivity | reflexivity | reflexivity].
Defined.

(** ** The Financial Annualizer *)

(** C4, as the code has it.  The annualizer returns the present-value cost
    divided by the product of the uniform-series factor (discount rate,
    length of the period) and the future-to-present factor (discount rate,
    start of the period less the base financial year), product and
    quotient being those of double arithmetic; where the product is zero
    it raises [ZeroDivisionError]. *)
Theorem annualize_divides_by_factors `{Doubles.Financials}
    (m : Doubles.Model) (p : period) (n s val : float) :
  m.(Doubles.period_length_years) !! p = Some n ->
  m.(Doubles.period_start) !! p = Some s ->
  let factor :=
    (Doubles.uniform_series_to_present_value m.(Doubles.discount_rate) n
     * Doubles.future_to_present_value m.(Doubles.discount_rate)
         (s - m.(Doubles.base_financial_year)))%float in
  Doubles.annualize_present_value_period_cost m p val
  = if PrimFloat.eqb factor 0 then Raise ZeroDivisionError
    else Ok (val / factor)%float.
Proof.
  intros Hn Hs factor.
  unfold Doubles.annualize_present_value_period_cost, Doubles.discount_factor.
  apply subscript_Ok in Hn, Hs. by rewrite Hn, Hs.
Qed.

Lemma annualize_divides_by_factors_example :
  Doubles.annualize_present_value_period_cost monthly_model 2020%Z 450000
  = Ok 30000%float.
Proof.
  exact (annualize_divides_by_factors monthly_model 2020%Z 15 2020 450000
           eq_refl eq_refl).
Defined.

(** C4, as stated, fails at a discount rate of zero for a period of
    fifteen years that starts in the base year, where the factors are 15
    and 1: the annual cost of 500000, multiplied back by their product, is
    above 500000 (it is 500000.00000000006). *)
Lemma annualize_round_trip_rounds :
  exists annual,
    Doubles.annualize_present_value_period_cost monthly_model 2020%Z 500000
      = Ok annual
    /\ PrimFloat.ltb 500000
         (annual * (Doubles.uniform_series_to_present_value 0 15
                    * Doubles.future_to_present_value 0 (2020 - 2020)))
       = true.
Proof. eexists. split; reflexivity. Qed.

(** ** Peak and typical days *)







(** ** Capacity counts where the project operated *)

Lemma above_threshold_true (x : Q) : above_threshold x = true <-> threshold < x.
Proof.
  unfold above_threshold. destruct (Qlt_le_dec threshold x) as [Hlt|Hle].
  - done.
  - split; [done|]. intros Hlt. by apply Qle_not_lt in Hle.
Qed.

Lemma comprehension_elem_of {A B} (cond : A -> res bool) (e : A -> res B)
    (l : list A) (vs : list B) (v : B) :
  comprehension cond e l = Ok vs ->
  v ∈ vs <-> exists x, x ∈ l /\ cond x = Ok true /\ e x = Ok v.
Proof.
  revert vs. induction l as [|x l IH]; intros vs; simpl.
  - intros [= <-]. split; [by intros ?%elem_of_nil|].
    by intros (? & ?%elem_of_nil & _).
  - intros Hc. apply bind_Ok in Hc as ([] & Hx & Hc).
    + inv_Ok. subst vs. rewrite elem_of_cons, IH by eassumption. split.
      * intros [-> | (y & Hy & Hcond & He)].
        -- exists x. split; [left|done].
        -- exists y. split; [by right|done].
      * intros (y & [-> | Hy]%elem_of_cons & Hcond & He).
        -- left. congruence.
        -- right. eauto.
    + rewrite IH by eassumption. split.
      * intros (y & Hy & Hcond & He). exists y. split; [by right|done].
      * intros (y & [-> | Hy]%elem_of_cons & Hcond & He); [congruence | eauto].
Qed.

Lemma sum_zero (l : list Q) : (forall x, x ∈ l -> x == 0) -> sum l == 0.
Proof.
  induction l as [|x l IH]; intros Hl; [done|].
  rewrite sum_cons, (Hl x), IH; [ring | | left].
  intros y Hy. apply Hl. by right.
Qed.

Lemma operate_proj_in_period_dispatched (m : Model)
    (ops : list (project * period)) (pr : project) (pe : period) :
  operate_proj_in_period m = Ok ops ->
  (pr, pe) ∈ ops <-> dispatched_in_period m pr pe.
Proof.
  unfold operate_proj_in_period, tuple_set. intros Hops. inv_Ok. subst ops.
  rewrite elem_of_remove_dups, comprehension_elem_of by eassumption.
  unfold dispatched_in_period. split.
  - intros ([pr' tp] & Hin & Hd & Hpe). inv_Ok. simplify_eq.
    match goal with
    | Ha : true = above_threshold ?d |- _ =>
        exists tp, d; symmetry in Ha; apply above_threshold_true in Ha
    end.
    by rewrite <- !subscript_Ok.
  - intros (tp & d & Hin & Hpe & Hd & Hlt). exists (pr, tp).
    apply subscript_Ok in Hpe, Hd. rewrite Hpe, Hd. simpl.
    apply above_threshold_true in Hlt. by rewrite Hlt.
Qed.

Lemma comprehension_selected {A B} (cond : A -> res bool) (e : A -> res B)
    (l : list A) (vs : list B) :
  comprehension cond e l = Ok vs ->
  Forall2 (fun x v => e x = Ok v) (selected_by cond l) vs.
Proof.
  revert vs. induction l as [|x l IH]; intros vs; simpl.
  - intros [= <-]. constructor.
  - intros Hc. apply bind_Ok in Hc as ([] & Hx & Hc); rewrite Hx.
    + inv_Ok. subst vs. constructor; [done|]. by apply IH.
    + by apply IH.
Qed.

Lemma tech_in_zone_true (m : Model) (t : gen_tech) (z : load_zone)
    (pr : project) :
  tech_in_zone m t z pr = Ok true
  <-> m.(proj_gen_tech) !! pr = Some t /\ m.(proj_load_zone) !! pr = Some z.
Proof.
  unfold tech_in_zone. split.
  - intros Hc. apply bind_Ok in Hc as (g & Hg & Hc). apply subscript_Ok in Hg.
    case_bool_decide as Hgt; [|discriminate]. subst g.
    apply bind_Ok in Hc as (lz & Hlz & Hc). apply subscript_Ok in Hlz.
    injection Hc as Hz. apply bool_decide_eq_true in Hz. by subst lz.
  - intros [Hg Hlz]. apply subscript_Ok in Hg, Hlz. rewrite Hg. simpl.
    rewrite bool_decide_eq_true_2 by done. rewrite Hlz. simpl.
    by rewrite bool_decide_eq_true_2.
Qed.

Lemma source_in_zone_true (m : Model) (s : energy_source) (z : load_zone)
    (pr : project) :
  source_in_zone m s z pr = Ok true
  <-> exists g, m.(proj_gen_tech) !! pr = Some g
                /\ g_energy_source_lambda m g = Ok s
                /\ m.(proj_load_zone) !! pr = Some z.
Proof.
  unfold source_in_zone. split.
  - intros Hc. apply bind_Ok in Hc as (g & Hg & Hc). apply subscript_Ok in Hg.
    apply bind_Ok in Hc as (s' & Hs & Hc).
    case_bool_decide as Hss; [|discriminate]. subst s'.
    apply bind_Ok in Hc as (lz & Hlz & Hc). apply subscript_Ok in Hlz.
    injection Hc as Hz. apply bool_decide_eq_true in Hz. subst lz. by exists g.
  - intros (g & Hg & Hs & Hlz). apply subscript_Ok in Hg, Hlz.
    rewrite Hg. simpl. rewrite Hs. simpl.
    rewrite bool_decide_eq_true_2 by done. rewrite Hlz. simpl.
    by rewrite bool_decide_eq_true_2.
Qed.

(** C10.  In both capacity reports a column is the sum, over the built
    projects of the column in the zone, of the project's capacity where
    the project dispatched more than 0.001 at some timepoint of the period
    and of 0.0 where it did not: a project that never dispatches above
    0.001 in a period adds nothing to that period's capacity, whatever its
    installed capacity is.  The total of a column is the sum of exactly
    one term for each built project that the column selects, which are the
    built projects of the column's technology, or energy source, in the
    load zone; the term is the project's capacity or 0.0, as said. *)
Theorem capacity_counts_operating_projects (m : Model)
    (ops : list (project * period)) :
  operate_proj_in_period m = Ok ops ->
  (forall pr pe, (pr, pe) ∈ ops <-> dispatched_in_period m pr pe)
  /\ (forall pr pe, dispatched_in_period m pr pe ->
        capacity_if_operated m ops pr pe = m.(ProjCapacity).[(pr, pe)])
  /\ (forall pr pe, ~ dispatched_in_period m pr pe ->
        capacity_if_operated m ops pr pe = Ok 0)
  /\ (forall bp selected pe total,
        capacity_sum m bp ops selected pe = Ok total ->
        (forall pr, pr ∈ bp -> selected pr = Ok true ->
           ~ dispatched_in_period m pr pe) ->
        total == 0)
  /\ (forall bp bt z pe row i t,
        capacity_by_technology_values m bp ops bt z pe = Ok row ->
        bt !! i = Some t ->
        exists total,
          row !! (2 + i)%nat = Some (VFloat total)
          /\ capacity_sum m bp ops (tech_in_zone m t z) pe = Ok total)
  /\ (forall bp bes z pe row i s,
        capacity_by_energy_source_values m bp ops bes z pe = Ok row ->
        bes !! i = Some s ->
        exists total,
          row !! (2 + i)%nat = Some (VFloat total)
          /\ capacity_sum m bp ops (source_in_zone m s z) pe = Ok total)
  /\ (forall bp selected pe total,
        capacity_sum m bp ops selected pe = Ok total ->
        exists terms,
          total = sum terms
          /\ Forall2 (counted m pe) (selected_by selected bp) terms)
  /\ (forall t z pr,
        tech_in_zone m t z pr = Ok true
        <-> m.(proj_gen_tech) !! pr = Some t /\ m.(proj_load_zone) !! pr = Some z)
  /\ (forall s z pr,
        source_in_zone m s z pr = Ok true
        <-> exists g, m.(proj_gen_tech) !! pr = Some g
                      /\ g_energy_source_lambda m g = Ok s
                      /\ m.(proj_load_zone) !! pr = Some z).
Proof.
  intros Hops.
  assert (Hspec : forall pr pe, (pr, pe) ∈ ops <-> dispatched_in_period m pr pe)
    by (intros; by apply operate_proj_in_period_dispatched).
  assert (Hcell : forall (A : Type) (f : A -> res Q) (l : list A) cells i x,
            for_each (fun x => VFloat <$> f x) l = Ok cells -> l !! i = Some x ->
            exists total, cells !! i = Some (VFloat total) /\ f x = Ok total).
  { intros A f l cells i x Hcells Hx. apply for_each_Forall2 in Hcells.
    destruct (Forall2_lookup_l _ _ _ _ _ Hcells Hx) as (c & Hc & Hfx).
    inv_Ok. subst c. eauto. }
  split; [done|]. split; [|split; [|split; [|split; [|split; [|split; [|split]]]]]].
  - intros pr pe Hd. unfold capacity_if_operated.
    by rewrite bool_decide_eq_true_2 by by apply Hspec.
  - intros pr pe Hd. unfold capacity_if_operated.
    by rewrite bool_decide_eq_false_2 by by rewrite Hspec.
  - intros bp selected pe total Hsum Hnone. unfold capacity_sum in Hsum.
    inv_Ok. subst total. apply sum_zero. intros x Hx.
    eapply comprehension_elem_of in Hx as (pr & Hpr & Hsel & Hcap); [|eassumption].
    unfold capacity_if_operated in Hcap.
    rewrite bool_decide_eq_false_2 in Hcap by (rewrite Hspec; by apply Hnone).
    by injection Hcap as <-.
  - intros bp bt z pe row i t Hrow Ht. unfold capacity_by_technology_values in Hrow.
    inv_Ok. subst row.
    match goal with
    | Hc : for_each _ bt = Ok _ |- _ =>
        destruct (Hcell _ _ _ _ _ _ Hc Ht) as (total & Hi & Htotal)
    end.
    exists total. split; [|done]. simpl. by apply lookup_app_l_Some.
  - intros bp bes z pe row i s Hrow Hs.
    unfold capacity_by_energy_source_values in Hrow. inv_Ok. subst row.
    match goal with
    | Hc : for_each _ bes = Ok _ |- _ =>
        destruct (Hcell _ _ _ _ _ _ Hc Hs) as (total & Hi & Htotal)
    end.
    exists total. split; [|done]. simpl. by apply lookup_app_l_Some.
  - intros bp selected pe total Hsum. unfold capacity_sum in Hsum.
    apply fmap_Ok in Hsum as (terms & Hterms & ->).
    exists terms. split; [done|].
    apply comprehension_selected in Hterms.
    eapply Forall2_impl; [exact Hterms|]. intros pr v Hv.
    unfold capacity_if_operated, counted in *.
    case_bool_decide as Hin.
    + left. split; [by apply Hspec | by apply subscript_Ok].
    + right. split; [by rewrite <- Hspec | congruence].
  - apply tech_in_zone_true.
  - apply source_in_zone_true.
Qed.

Lemma capacity_counts_operating_projects_example :
  ProjCapacity (example_model 40 0 None None) !! ("wind_farm"%string, 2020%Z)
    = Some 50
  /\ capacity_if_operated (example_model 40 0 None None)
       [("plant"%string, 2020%Z)] "wind_farm" 2020%Z = Ok 0
  /\ capacity_if_operated (example_model 40 0 None None)
       [("plant"%string, 2020%Z)] "plant" 2020%Z = Ok 120.
Proof.
  destruct (capacity_counts_operating_projects (example_model 40 0 None None)
              [("plant"%string, 2020%Z)] eq_refl)
    as (Hspec & Hyes & Hno & _).
  split; [reflexivity|]. split.
  - apply Hno. rewrite <- Hspec. by intros [=]%list_elem_of_singleton.
  - rewrite Hyes; [reflexivity|]. apply Hspec. left.
Defined.

(** ** The Report Table Builder *)

Lemma product_cons {A} (d : list A) (ds : list (list A)) :
  product (d :: ds) = d ≫= fun x => map (cons x) (product ds).
Proof. reflexivity. Qed.

Lemma product_length {A} (dimensions : list (list A)) :
  length (product dimensions) = product_size dimensions.
Proof.
  induction dimensions as [|d ds IH]; [done|].
  rewrite product_cons. unfold product_size. simpl. fold (product_size ds).
  induction d as [|x d IHd]; [done|].
  rewrite bind_cons, length_app, length_map, IHd, IH. done.
Qed.

Lemma rank_lt_size {A} (ixs : list nat) (dimensions : list (list A)) :
  positions ixs dimensions -> (rank ixs dimensions < product_size dimensions)%nat.
Proof.
  induction 1 as [|i d ixs ds Hi _ IH]; simpl; [lia|]. nia.
Qed.

Lemma lookup_bind_block {A B} (f : A -> list B) (n : nat) (d : list A)
    (i j : nat) (x : A) :
  (forall y, length (f y) = n) -> d !! i = Some x -> (j < n)%nat ->
  (d ≫= f) !! (i * n + j)%nat = f x !! j.
Proof.
  intros Hn. revert i. induction d as [|y d IH]; intros i Hx Hj; [done|].
  rewrite bind_cons. destruct i as [|i]; simpl in Hx.
  - injection Hx as ->. simpl. apply lookup_app_l. by rewrite Hn.
  - rewrite lookup_app_r by (rewrite Hn; simpl; lia).
    rewrite Hn. replace (S i * n + j - n)%nat with (i * n + j)%nat by (simpl; lia).
    by apply IH.
Qed.

Lemma product_lookup_rank {A} (ixs : list nat) (dimensions : list (list A)) :
  positions ixs dimensions ->
  exists x, select ixs dimensions = Some x
            /\ product dimensions !! rank ixs dimensions = Some x.
Proof.
  induction 1 as [|i d ixs ds Hi Hpos (xs & Hsel & Hlook)]; [by exists []|].
  destruct (lookup_lt_is_Some_2 d i Hi) as [x Hx].
  exists (x :: xs). rewrite product_cons. simpl. rewrite Hx, Hsel. split; [done|].
  rewrite (lookup_bind_block _ (product_size ds) d i _ x); try done.
  - by rewrite list_lookup_fmap, Hlook.
  - intros y. by rewrite length_map, product_length.
  - by apply rank_lt_size.
Qed.

Lemma rank_lex {A} (ixs jxs : list nat) (dimensions : list (list A)) :
  positions ixs dimensions -> positions jxs dimensions ->
  lex_lt ixs jxs <-> (rank ixs dimensions < rank jxs dimensions)%nat.
Proof.
  intros Hi. revert jxs.
  induction Hi as [|i d ixs ds Hi Hpos IH]; intros jxs Hj.
  - inversion Hj; subst. simpl. lia.
  - inversion Hj as [|j ? jxs' ? Hjd Hpos']; subst. simpl.
    pose proof (rank_lt_size _ _ Hpos). pose proof (rank_lt_size _ _ Hpos').
    rewrite (IH _ Hpos'). split.
    + intros [Hlt | [-> Hlt]]; nia.
    + intros Hlt. destruct (decide (i = j)) as [->|Hne]; [right; split; [done|lia]|].
      left. nia.
Qed.

Lemma rank_onto {A} (dimensions : list (list A)) (n : nat) :
  (n < product_size dimensions)%nat ->
  exists ixs, positions ixs dimensions /\ rank ixs dimensions = n.
Proof.
  revert n. induction dimensions as [|d ds IH]; simpl; intros n Hn.
  - exists []. split; [constructor | simpl; lia].
  - assert (Hpos : (0 < product_size ds)%nat) by nia.
    destruct (IH (n mod product_size ds)%nat) as (ixs & Hixs & Hrank);
      [by apply Nat.mod_upper_bound; lia|].
    exists ((n / product_size ds)%nat :: ixs). split.
    + constructor; [|done]. apply Nat.Div0.div_lt_upper_bound. lia.
    + simpl. rewrite Hrank. pose proof (Nat.div_mod_eq n (product_size ds)). lia.
Qed.

(** C8.  A report over the dimensions D1, ..., Dk whose row function
    succeeds has as many rows as the product of the sizes of D1, ..., Dk;
    its rows are the results of the row function on the tuples of the
    Cartesian product, one call per tuple, and the tuple at positions
    (i1, ..., ik) of the dimensions gives the row of rank
    (...(i1 * |D2| + i2)...) * |Dk| + ik: the rows are in the lexicographic
    order of the dimensions as declared, the first one varying slowest,
    and the ranks cover every row once. *)
Theorem write_table_cartesian (indexes : list (list (list pyval)))
    (file : string) (hs : list string)
    (values : list pyval -> res (list pyval)) :
  (forall x, x ∈ product indexes -> exists row, values (unpack_elements x) = Ok row) ->
  exists t,
    write_table indexes file hs values = Ok t
    /\ t.(headings) = hs
    /\ length t.(rows) = product_size indexes
    /\ Forall2 (fun x row => values (unpack_elements x) = Ok row)
         (product indexes) t.(rows)
    /\ (forall ixs, positions ixs indexes ->
          exists x row,
            select ixs indexes = Some x
            /\ t.(rows) !! rank ixs indexes = Some row
            /\ values (unpack_elements x) = Ok row)
    /\ (forall ixs jxs, positions ixs indexes -> positions jxs indexes ->
          lex_lt ixs jxs <-> (rank ixs indexes < rank jxs indexes)%nat)
    /\ (forall n, (n < product_size indexes)%nat ->
          exists ixs, positions ixs indexes /\ rank ixs indexes = n).
Proof.
  intros Hvalues.
  destruct (for_each_total (fun x => values (unpack_elements x)) (product indexes))
    as [rs Hrs]; [done|].
  exists {| output_file := file; headings := hs; rows := rs |}.
  unfold write_table. rewrite Hrs. simpl.
  apply for_each_Forall2 in Hrs.
  repeat split; try done.
  - rewrite <- product_length. symmetry. by eapply Forall2_length.
  - intros ixs Hixs.
    destruct (product_lookup_rank _ _ Hixs) as (x & Hsel & Hlook).
    destruct (Forall2_lookup_l _ _ _ _ _ Hrs Hlook) as (row & Hrow & Hcall).
    by exists x, row.
  - by apply rank_lex.
  - by apply rank_lex.
  - apply rank_onto.
Qed.

Lemma write_table_cartesian_example :
  exists t,
    write_table
      [[[VStr "north"]; [VStr "south"]]; [[VInt 1]; [VInt 2]; [VInt 3]]]
      "t.tsv" ["load_zone"; "timepoint"] (fun x => Ok x) = Ok t
    /\ length t.(rows) = 6%nat
    /\ t.(rows) !! 5%nat = Some [VStr "south"; VInt 3].
Proof.
  destruct (write_table_cartesian
              [[[VStr "north"]; [VStr "south"]]; [[VInt 1]; [VInt 2]; [VInt 3]]]
              "t.tsv" ["load_zone"; "timepoint"] (fun x => Ok x))
    as (t & Ht & _ & Hlen & _ & Hrank & _); [by eauto|].
  exists t. split; [done|]. split; [done|].
  destruct (Hrank [1; 2]%nat) as (x & row & Hsel & Hrow & Hcall).
  - repeat constructor.
  - injection Hsel as <-. injection Hcall as <-. exact Hrow.
Defined.

(** ** Row arity and header arity *)

(** Splits on the optional attributes that a successful computation
    tested, and takes the binds of each branch apart. *)
Ltac split_attributes :=
  repeat match goal with
  | H : match ?o with Some _ => _ | None => _ end = Ok _ |- _ =>
      destruct o eqn:?; simpl in H
  | H : (if hasattr ?o then _ else _) = Ok _ |- _ =>
      destruct o eqn:?; simpl in H
  | _ => progress inv_Ok
  end.

Ltac count_cells :=
  subst; simpl;
  repeat match goal with
  | H : for_each _ _ = Ok _ |- _ => apply for_each_length in H
  end;
  repeat (rewrite length_app || rewrite length_map || simpl);
  unfold period, timepoint, project, load_zone, fuel, gen_tech, energy_source,
    timeseries, market, tier in *;
  try lia.

Lemma summary_arity (m : Model) (row : list pyval) :
  summary_values m = Ok row -> length row = length (summary_headers m).
Proof.
  unfold summary_values, summary_headers. intros Hrow.
  destruct (RPSEligiblePower m); simpl in *; inv_Ok; count_cells.
Qed.

Lemma energy_sources_arity (m : Model) (avg : Q) (z : load_zone)
    (t : timepoint) (row : list pyval) :
  energy_sources_values m avg z t = Ok row ->
  length row = length (energy_sources_headings m).
Proof.
  unfold energy_sources_values, energy_sources_headings. intros Hrow.
  inv_Ok. count_cells.
Qed.

Lemma storage_capacities_arity (m : Model) (z : load_zone) (pe : period)
    (cells : list pyval) :
  storage_capacities m z pe = Ok cells -> length cells = 3%nat.
Proof. unfold storage_capacities. intros Hc. inv_Ok. by subst. Qed.

Lemma capacity_by_technology_arity (m : Model) (bp : list project)
    (ops : list (project * period)) (bt : list gen_tech) (z : load_zone)
    (pe : period) (row : list pyval) :
  capacity_by_technology_values m bp ops bt z pe = Ok row ->
  length row = length (capacity_by_technology_headings bt).
Proof.
  unfold capacity_by_technology_values, capacity_by_technology_headings.
  intros Hrow. inv_Ok.
  match goal with
  | Hs : storage_capacities _ _ _ = Ok _ |- _ =>
      apply storage_capacities_arity in Hs
  end.
  count_cells.
Qed.

Lemma capacity_by_energy_source_arity (m : Model) (bp : list project)
    (ops : list (project * period)) (bes : list energy_source) (z : load_zone)
    (pe : period) (row : list pyval) :
  capacity_by_energy_source_values m bp ops bes z pe = Ok row ->
  length row = length (capacity_by_energy_source_headings bes).
Proof.
  unfold capacity_by_energy_source_values, capacity_by_energy_source_headings.
  intros Hrow. inv_Ok.
  match goal with
  | Hs : storage_capacities _ _ _ = Ok _ |- _ =>
      apply storage_capacities_arity in Hs
  end.
  count_cells.
Qed.

Lemma rfm_activate_arity (activate : gmap (market * period * tier) Q)
    (r : market) (p : period) (st : tier) (row : list pyval) :
  rfm_activate_values activate r p st = Ok row ->
  length row = length rfm_activate_headings.
Proof. unfold rfm_activate_values. intros Hrow. inv_Ok. by subst. Qed.

(** The cost-breakdown header tests [ice_annual_fuel_cost] for its last
    column, the row tests [ev_extra_annual_cost] for its last two cells:
    the arities agree where the latter attribute is present or the former
    absent. *)
Lemma cost_breakdown_arity `{Financials} (m : Model) (bp : list project)
    (bt : list gen_tech) (z : load_zone) (pe : period) (row : list pyval) :
  is_Some m.(ev_extra_annual_cost) \/ m.(ice_annual_fuel_cost) = None ->
  cost_breakdown_details m bp bt z pe = Ok row ->
  length row = length (cost_breakdown_headings m bt).
Proof.
  unfold cost_breakdown_details, cost_breakdown_headings. intros Hev Hrow.
  apply bind_Ok in Hrow as (added & Hadded & Hrow).
  apply bind_Ok in Hrow as (batteries & Hbatteries & Hrow).
  assert (length batteries = 2%nat) by (split_attributes; by subst).
  apply bind_Ok in Hrow as (hydro & _ & Hrow).
  apply bind_Ok in Hrow as (hydrogen & Hhydrogen & Hrow).
  assert (length hydrogen = 4%nat) by (split_attributes; by subst).
  apply bind_Ok in Hrow as (vehicles & Hvehicles & Hrow).
  assert (length vehicles = if hasattr m.(ev_share) then 2%nat else 0%nat)
    by (split_attributes; by subst).
  apply bind_Ok in Hrow as (invested & Hinvested & Hrow).
  apply bind_Ok in Hrow as (battery_cost & _ & Hrow).
  apply bind_Ok in Hrow as (hydro_cost & _ & Hrow).
  apply bind_Ok in Hrow as (hydrogen_cost & Hhydrogen_cost & Hrow).
  assert (length hydrogen_cost = 4%nat) by (split_attributes; by subst).
  apply bind_Ok in Hrow as (fuel_cost & Hfuel_cost & Hrow).
  assert (length fuel_cost
          = match m.(REGIONAL_FUEL_MARKET) with
            | Some markets => length markets
            | None => 0%nat
            end).
  { destruct (REGIONAL_FUEL_MARKET m); [by apply for_each_length in Hfuel_cost|].
    by injection Hfuel_cost as <-. }
  apply bind_Ok in Hrow as (expansion & Hexpansion & Hrow).
  assert (length expansion
          = if hasattr m.(RFM_Fixed_Costs_Annual) then 1%nat else 0%nat)
    by (split_attributes; by subst).
  apply bind_Ok in Hrow as (cost & _ & Hrow).
  apply bind_Ok in Hrow as (total & _ & Hrow).
  apply bind_Ok in Hrow as (transport & Htransport & Hrow).
  assert (length transport
          = ((if hasattr m.(ev_extra_annual_cost) then 1 else 0)
             + (if hasattr m.(ice_annual_fuel_cost) then 1 else 0))%nat).
  { destruct (ev_extra_annual_cost m) as [ev|], (ice_annual_fuel_cost m) as [ice|];
      simpl in *; inv_Ok; subst; try done.
    destruct Hev as [[? [=]] | [=]]. }
  injection Hrow as <-.
  apply for_each_length in Hadded, Hinvested.
  destruct (REGIONAL_FUEL_MARKET m);
    repeat (rewrite length_app || rewrite length_map || simpl);
    unfold gen_tech, market in *;
    destruct (hasattr (ev_share m)), (hasattr (RFM_Fixed_Costs_Annual m)),
      (hasattr (ev_extra_annual_cost m)), (hasattr (ice_annual_fuel_cost m));
    simpl; lia.
Qed.

(** C6.  Row arity equals header arity in every report but one: where a
    model carries [ice_annual_fuel_cost] without [ev_extra_annual_cost],
    the cost-breakdown header has the column 'ice_annual_fuel_cost' and the
    rows have no cell for it, so that each row is one cell short of the
    header. *)
Theorem cost_breakdown_row_short_of_header :
  exists t row,
    (write_results (example_model 40 0 None (Some {[ 2020%Z := 900 ]})) "out" []).1
      !! 4%nat = Some t
    /\ t.(output_file) = "out/cost_breakdown_base.tsv"%string
    /\ last t.(headings) = Some "ice_annual_fuel_cost"%string
    /\ row ∈ t.(rows)
    /\ length t.(headings) = 21%nat
    /\ length row = 20%nat.
Proof.
  eexists. eexists. split; [vm_compute; reflexivity|]. simpl.
  split; [reflexivity|]. split; [reflexivity|]. split; [left|].
  split; reflexivity.
Qed.

(** ** Optional column groups *)

Lemma app_has_suffix (t s x : string) : t +:+ s = x -> has_suffix s x = true.
Proof.
  revert x. induction t as [|c t IH]; intros x Hx.
  - change (s = x) in Hx. subst x. destruct s as [|a s]; [done|].
    cbn [has_suffix]. by rewrite String.eqb_refl.
  - change (String c (t +:+ s) = x) in Hx. subst x.
    cbn [has_suffix]. rewrite (IH _ eq_refl). apply orb_true_r.
Qed.

(** Refutes the membership [H] of a column name in a header made of
    literal names and of names with a literal ending. *)
Ltac not_a_column H :=
  cbn [hasattr] in H; rewrite ?elem_of_app in H; destruct_or!;
  try match type of H with
      | _ ∈ map _ _ =>
          let E := fresh in
          apply list_elem_of_In, in_map_iff in H as (? & E & _);
          apply app_has_suffix in E; discriminate E
      end;
  repeat match type of H with
         | _ ∈ (if ?b then _ else _) => destruct b
         | _ ∈ _ :: _ => apply elem_of_cons in H as [H|H]; [discriminate H|]
         end;
  by apply elem_of_nil in H.

Lemma cost_breakdown_headings_length (m : Model) (bt : list gen_tech) :
  length (cost_breakdown_headings m bt)
  = (2 * length bt + 16
     + (if hasattr m.(ev_share) then 2 else 0)
     + match m.(REGIONAL_FUEL_MARKET) with
       | Some markets => length markets
       | None => 0
       end
     + (if hasattr m.(RFM_Fixed_Costs_Annual) then 1 else 0)
     + (if hasattr m.(ev_extra_annual_cost) then 1 else 0)
     + (if hasattr m.(ice_annual_fuel_cost) then 1 else 0))%nat.
Proof.
  unfold cost_breakdown_headings.
  destruct (REGIONAL_FUEL_MARKET m);
    repeat (rewrite length_app || rewrite length_map || simpl);
    unfold gen_tech, market in *;
    destruct (hasattr (ev_share m)), (hasattr (RFM_Fixed_Costs_Annual m)),
      (hasattr (ev_extra_annual_cost m)), (hasattr (ice_annual_fuel_cost m));
    simpl; lia.
Qed.

(** C5, as the code has it.  The columns of the battery, pumped-hydro and
    hydrogen or fuel-cell subsystems are in the headers of the capacity and
    cost-breakdown reports of every model, and where the attributes of the
    three storage subsystems are absent the capacity rows carry 0, 0.0
    and 0 there.  The other groups narrow the schema: without the RPS
    attribute the summary header has the scenario and cost columns only;
    without [ev_share], [ev_extra_annual_cost] or [ice_annual_fuel_cost]
    the cost-breakdown header has none of their columns, and a group that
    is absent (these, the fuel markets, the fuel-market expansion) adds no
    column to the sixteen fixed ones and the two per built technology. *)
Theorem optional_column_groups (m : Model) (bt : list gen_tech)
    (bes : list energy_source) :
  (forall c, c ∈ ["hydro"; "batteries"; "fuel cells"]%string ->
     c ∈ capacity_by_technology_headings bt
     /\ c ∈ capacity_by_energy_source_headings bes)
  /\ (forall c,
        c ∈ ["batteries_mw_added"; "batteries_mwh_added"; "hydro_mw_added";
             "h2_electrolyzer_mw_added"; "h2_liquifier_kg_per_hour_added";
             "liquid_h2_tank_kg_added"; "fuel_cell_mw_added";
             "batteries_overnight_cost"; "hydro_overnight_cost";
             "h2_electrolyzer_overnight_cost"; "h2_liquifier_overnight_cost";
             "liquid_h2_tank_overnight_cost"; "fuel_cell_overnight_cost"]%string ->
        c ∈ cost_breakdown_headings m bt)
  /\ (forall z pe,
        m.(Pumped_Hydro_Capacity_MW) = None -> m.(Battery_Capacity) = None ->
        m.(FuelCellCapacityMW) = None ->
        storage_capacities m z pe = Ok [VInt 0; VFloat 0; VInt 0])
  /\ (m.(RPSEligiblePower) = None ->
        summary_headers m
        = ["scenario"; "max_demand_response_share"; "total_cost"; "cost_per_kwh"]%string
          ++ map (fun p => "cost_per_kwh_" +:+ str p) m.(PERIODS))
  /\ (m.(ev_share) = None ->
        ("ev_count"%string ∉ cost_breakdown_headings m bt)
        /\ ("ice_count"%string ∉ cost_breakdown_headings m bt))
  /\ (m.(ev_extra_annual_cost) = None ->
        ("ev_extra_capital_recovery"%string ∉ cost_breakdown_headings m bt))
  /\ (m.(ice_annual_fuel_cost) = None ->
        ("ice_annual_fuel_cost"%string ∉ cost_breakdown_headings m bt))
  /\ length (cost_breakdown_headings m bt)
     = (2 * length bt + 16
        + (if hasattr m.(ev_share) then 2 else 0)
        + match m.(REGIONAL_FUEL_MARKET) with
          | Some markets => length markets
          | None => 0
          end
        + (if hasattr m.(RFM_Fixed_Costs_Annual) then 1 else 0)
        + (if hasattr m.(ev_extra_annual_cost) then 1 else 0)
        + (if hasattr m.(ice_annual_fuel_cost) then 1 else 0))%nat.
Proof.
  split; [|split; [|split; [|split; [|split; [|split; [|split]]]]]].
  - intros c Hc.
    unfold capacity_by_technology_headings, capacity_by_energy_source_headings.
    rewrite !elem_of_app. tauto.
  - intros c Hc. unfold cost_breakdown_headings.
    repeat (apply elem_of_cons in Hc as [-> | Hc];
            [rewrite !elem_of_app, !elem_of_cons; tauto|]).
    by apply elem_of_nil in Hc.
  - intros z pe Hhydro Hbattery Hcell.
    unfold storage_capacities, battery_capacity_mw.
    by rewrite Hhydro, Hbattery, Hcell.
  - intros Hrps. unfold summary_headers. rewrite Hrps. simpl.
    by rewrite !app_nil_r.
  - intros Hev. unfold cost_breakdown_headings. rewrite Hev.
    destruct (REGIONAL_FUEL_MARKET m); split; intros Hin; not_a_column Hin.
  - intros Hev. unfold cost_breakdown_headings. rewrite Hev.
    destruct (REGIONAL_FUEL_MARKET m); intros Hin; not_a_column Hin.
  - intros Hice. unfold cost_breakdown_headings. rewrite Hice.
    destruct (REGIONAL_FUEL_MARKET m); intros Hin; not_a_column Hin.
  - apply cost_breakdown_headings_length.
Qed.

Lemma optional_column_groups_example :
  "batteries"%string ∈ capacity_by_technology_headings ["steam"; "turbine"]%string
  /\ storage_capacities (example_model 40 0 None None) "north" 2020%Z
     = Ok [VInt 0; VFloat 0; VInt 0]
  /\ ("ev_count"%string
        ∉ cost_breakdown_headings (example_model 40 0 None None)
            ["steam"; "turbine"]%string).
Proof.
  destruct (optional_column_groups (example_model 40 0 None None)
              ["steam"; "turbine"]%string ["diesel/lng"; "wind"]%string)
    as (Hcapacity & _ & Hzero & _ & Hev & _).
  split; [|split].
  - apply Hcapacity. right. left.
  - by apply Hzero.
  - by apply Hev.
Defined.

(** C5, as stated, fails on a model without battery, pumped-hydro and
    fuel-cell attributes: the capacity-by-technology report still has the
    columns 'hydro', 'batteries' and 'fuel cells', filled with 0, 0.0
    and 0. *)
Lemma absent_storage_keeps_its_columns :
  Pumped_Hydro_Capacity_MW (example_model 40 0 None None) = None
  /\ Battery_Capacity (example_model 40 0 None None) = None
  /\ FuelCellCapacityMW (example_model 40 0 None None) = None
  /\ exists t,
       (write_results (example_model 40 0 None None) "out" []).1 !! 2%nat = Some t
       /\ t.(output_file) = "out/capacity_by_technology_base.tsv"%string
       /\ t.(headings)
          = ["load_zone"; "period"; "steam"; "turbine";
             "hydro"; "batteries"; "fuel cells"]%string
       /\ t.(rows)
          = [[VStr "north"; VInt 2020; VFloat 120; VFloat 0;
              VInt 0; VFloat 0; VInt 0];
             [VStr "south"; VInt 2020; VFloat 0; VFloat 0;
              VInt 0; VFloat 0; VInt 0]].
Proof.
  split; [reflexivity|]. split; [reflexivity|]. split; [reflexivity|].
  eexists. split; [vm_compute; reflexivity|]. simpl.
  split; [reflexivity|]. split; reflexivity.
Qed.

(** ** The sequence of reports *)

Lemma write_table_output_file (indexes : list (list (list pyval)))
    (file : string) (hs : list string)
    (values : list pyval -> res (list pyval)) (t : Table) :
  write_table indexes file hs values = Ok t -> t.(output_file) = file.
Proof. unfold write_table. intros Ht. inv_Ok. by subst t. Qed.

Lemma bind_write {B} (r : res Table) (k : unit -> outputs B) (files : list Table) :
  (write r ≫= k) files
  = match r with
    | Ok t => k () (files ++ [t])
    | Raise e => (files, Raise e)
    end.
Proof. by destruct r. Qed.

Lemma bind_eval {A B} (r : res A) (k : A -> outputs B) (files : list Table) :
  (eval r ≫= k) files
  = match r with
    | Ok a => k a files
    | Raise e => (files, Raise e)
    end.
Proof. by destruct r. Qed.

Lemma write_alone (r : res Table) (files : list Table) :
  write r files
  = match r with
    | Ok t => (files ++ [t], Ok ())
    | Raise e => (files, Raise e)
    end.
Proof. by destruct r. Qed.

(** Runs the next statement of [write_results]: the goal splits into the
    case where it raised and the one where it went through. *)
Ltac next_statement :=
  (rewrite bind_write || rewrite bind_eval || rewrite write_alone);
  match goal with
  | |- context [match ?r with Ok _ => _ | Raise _ => _ end] =>
      let E := fresh "E" in
      destruct r eqn:E;
      [try apply write_table_output_file in E|]
  end.

(** Closes the case of a pass that ended: the files written are known. *)
Ltac pass_ended :=
  eexists; split;
    [simpl; first [symmetry; apply app_nil_r
                  | rewrite <- ?app_assoc; reflexivity]|];
  unfold report_files;
  try match goal with
  | E : RFMSupplyTierActivate _ = _ |- _ => rewrite E
  end;
  simpl;
  repeat match goal with
  | E : output_file _ = _ |- _ => rewrite E; clear E
  end;
  split; [eexists; reflexivity|];
  split; [done | intros ? ?; simpl; rewrite ?length_map; try done;
                 try match goal with
                     | |- context [hasattr ?o] => destruct (hasattr o)
                     end;
                 simpl; lia].

(** C9, as the code has it.  The reports are written in one fixed
    sequence: summary, energy sources, capacity by technology, capacity by
    energy source, cost breakdown and, where the model has
    [RFMSupplyTierActivate], the fuel-market-tier activation; a model
    without that attribute gets the five others.  A pass that raises stops
    there: the files written before remain, in that order, and at least
    one report of the sequence is not produced. *)
Theorem write_results_stops_at_first_failure `{Financials} (m : Model)
    (outputs_dir : string) (files : list Table) :
  exists written,
    (write_results m outputs_dir files).1 = files ++ written
    /\ map output_file written `prefix_of` report_files m outputs_dir
    /\ ((write_results m outputs_dir files).2 = Ok () ->
          map output_file written = report_files m outputs_dir)
    /\ (forall e, (write_results m outputs_dir files).2 = Raise e ->
          (length written < length (report_files m outputs_dir))%nat).
Proof.
  unfold write_results. cbv zeta.
  next_statement; [|pass_ended].
  next_statement; [|pass_ended].
  next_statement; [|pass_ended].
  next_statement; [|pass_ended].
  next_statement; [|pass_ended].
  next_statement; [|pass_ended].
  next_statement; [|pass_ended].
  next_statement; [|pass_ended].
  next_statement; [|pass_ended].
  next_statement; [|pass_ended].
  destruct (RFMSupplyTierActivate m) as [activate|] eqn:Hactivate.
  - next_statement; [|pass_ended].
    next_statement; pass_ended.
  - pass_ended.
Qed.

Lemma write_results_stops_at_first_failure_example :
  exists written,
    (write_results (example_model 0 0 None None) "out" []).1 = [] ++ written
    /\ (length written < 5)%nat.
Proof.
  destruct (write_results_stops_at_first_failure
              (example_model 0 0 None None) "out" [])
    as (written & Hwritten & _ & _ & Hraise).
  exists written. split; [exact Hwritten|].
  exact (Hraise ZeroDivisionError eq_refl).
Defined.

(** C9, as stated, fails on a model whose load is zero everywhere: the
    cost per kWh of the summary divides by zero, the pass ends with that
    exception and no file, although the energy-sources report of the same
    model can be computed. *)
Lemma failed_summary_blocks_other_reports :
  write_results (example_model 0 0 None None) "out" []
    = ([], Raise ZeroDivisionError)
  /\ exists avg t,
       avg_ts_scale (example_model 0 0 None None) = Ok avg
       /\ write_table
            [zones (example_model 0 0 None None);
             keys (example_model 0 0 None None).(TIMEPOINTS)]
            "out/energy_sources_base.tsv"
            (energy_sources_headings (example_model 0 0 None None))
            (by_zone_and_key
               (energy_sources_values (example_model 0 0 None None) avg))
          = Ok t
       /\ length t.(rows) = 4%nat.
Proof.
  split; [reflexivity|].
  eexists. eexists. split; [reflexivity|].
  split; [vm_compute; reflexivity|]. reflexivity.
Qed.

(** * Further properties *)

(** ** Strings *)

Lemma append_nil_l (s : string) : ("" +:+ s)%string = s.
Proof. reflexivity. Qed.

Lemma append_cons (a : Ascii.ascii) (s t : string) :
  (String a s +:+ t)%string = String a (s +:+ t).
Proof. reflexivity. Qed.

Lemma append_nil_r (s : string) : (s +:+ "")%string = s.
Proof. induction s as [|a s IH]; [done|]. by rewrite append_cons, IH. Qed.

Lemma append_assoc (s t u : string) :
  ((s +:+ t) +:+ u)%string = (s +:+ (t +:+ u))%string.
Proof. induction s as [|a s IH]; [done|]. by rewrite !append_cons, IH. Qed.

(** ** More on the Fuel-Proportional Allocator *)

Lemma subscript_missing `{Countable K} {V} (d : gmap K V) (k : K) :
  d !! k = None -> d.[k] = Raise KeyError.
Proof. unfold subscript. by intros ->. Qed.

(** X1.  A fuel without a use rate: when the dispatch is nonzero and the
    use-rate map has no entry for the project, timepoint and fuel, the
    allocator raises [KeyError]; the guard of the division does not catch
    it. *)
Theorem DispatchProjByFuel_missing_rate (m : Model) (proj : project)
    (tp : timepoint) (f : fuel) (d : Q) :
  m.(DispatchProj) !! (proj, tp) = Some d -> ~ d == 0 ->
  m.(ProjFuelUseRate) !! (proj, tp, f) = None ->
  DispatchProjByFuel m proj tp f = Raise KeyError.
Proof.
  intros Hd Hd0 Hr. unfold DispatchProjByFuel. rewrite Hd.
  destruct (Qeq_bool d 0) eqn:E; [apply Qeq_bool_iff in E; contradiction|].
  by rewrite (subscript_missing _ _ Hr).
Qed.

Lemma DispatchProjByFuel_missing_rate_example :
  DispatchProjByFuel (example_model 40 0 None None) "plant" 1%Z "coal"
  = Raise KeyError.
Proof.
  apply (DispatchProjByFuel_missing_rate _ _ _ _ 100);
    [reflexivity | discriminate | reflexivity].
Defined.

Lemma sum_nonneg (l : list Q) : Forall (fun x => 0 <= x) l -> 0 <= sum l.
Proof.
  induction 1 as [|x l Hx _ IH]; [done|].
  rewrite sum_cons. lra.
Qed.

(** X2.  The share of a fuel is not negative, where the dispatch of the
    project and its use rates at the timepoint are not negative. *)
Theorem DispatchProjByFuel_not_negative (m : Model) (proj : project)
    (tp : timepoint) (f : fuel) (share : Q) :
  (forall d, m.(DispatchProj) !! (proj, tp) = Some d -> 0 <= d) ->
  (forall f' r, m.(ProjFuelUseRate) !! (proj, tp, f') = Some r -> 0 <= r) ->
  DispatchProjByFuel m proj tp f = Ok share ->
  0 <= share.
Proof.
  intros Hd Hrates. unfold DispatchProjByFuel.
  destruct (m.(DispatchProj) !! (proj, tp)) as [d|] eqn:Ed; [|by intros [= <-]].
  specialize (Hd d eq_refl).
  destruct (Qeq_bool d 0) eqn:E; [by intros [= <-]|].
  intros Hs. apply bind_Ok in Hs as (r & Hr & Hs).
  apply bind_Ok in Hs as (total & Ht & Hs).
  destruct (total_fuel_use_rate_Ok _ _ _ _ Ht)
    as (g & fs & rates & Hg & Hfs & Hall & ->).
  apply subscript_Ok in Hr.
  assert (Hpos : Forall (fun y => 0 <= y) rates).
  { apply Forall_forall. intros y Hy.
    apply list_elem_of_lookup in Hy as [i Hy].
    destruct (Forall2_lookup_r _ _ _ _ _ Hall Hy) as (f' & _ & Hf').
    by eapply Hrates. }
  assert (Hr0 : 0 <= r) by by eapply Hrates.
  unfold div in Hs. destruct (Qeq_bool (sum rates) 0) eqn:E0.
  { by injection Hs as <-. }
  injection Hs as <-.
  assert (Htotal : 0 < sum rates).
  { pose proof (sum_nonneg _ Hpos) as Hn.
    apply Qle_lt_or_eq in Hn as [Hn | Hn]; [done|].
    symmetry in Hn. apply Qeq_bool_iff in Hn. congruence. }
  apply Qle_shift_div_l; [done|]. nra.
Qed.

Lemma DispatchProjByFuel_not_negative_example :
  exists share,
    DispatchProjByFuel (example_model 40 0 None None) "plant" 1%Z "lng" = Ok share
    /\ 0 <= share.
Proof.
  eexists. split; [reflexivity|].
  apply (DispatchProjByFuel_not_negative (example_model 40 0 None None)
           "plant" 1%Z "lng"); [| |reflexivity].
  - intros d Hd. vm_compute in Hd. injection Hd as <-. discriminate.
  - intros f' r Hr.
    destruct (decide (f' = "diesel"%string)) as [->|Hd];
      [vm_compute in Hr; injection Hr as <-; discriminate|].
    destruct (decide (f' = "lng"%string)) as [->|Hl];
      [vm_compute in Hr; injection Hr as <-; discriminate|].
    unfold example_model in Hr. simpl in Hr.
    rewrite !lookup_insert_ne, lookup_singleton_ne in Hr by congruence.
    discriminate.
Defined.

(** ** More on the Financial Annualizer *)

(** X4.  The annualizer raises [KeyError] for a period without a length or
    without a start, and [ZeroDivisionError] where the product of the two
    discount factors is zero. *)
Theorem annualize_errors `{Financials} (m : Model) (p : period) (val : Q) :
  (m.(period_length_years) !! p = None ->
     annualize_present_value_period_cost m p val = Raise KeyError)
  /\ (forall n, m.(period_length_years) !! p = Some n ->
        m.(period_start) !! p = None ->
        annualize_present_value_period_cost m p val = Raise KeyError)
  /\ (forall n s,
        m.(period_length_years) !! p = Some n ->
        m.(period_start) !! p = Some s ->
        uniform_series_to_present_value m.(discount_rate) n
        * future_to_present_value m.(discount_rate) (s - m.(base_financial_year))
        == 0 ->
        annualize_present_value_period_cost m p val = Raise ZeroDivisionError).
Proof.
  unfold annualize_present_value_period_cost, discount_factor.
  split; [|split].
  - intros Hn. by rewrite (subscript_missing _ _ Hn).
  - intros n Hn Hs. apply subscript_Ok in Hn.
    by rewrite Hn, (subscript_missing _ _ Hs).
  - intros n s Hn Hs Hf. apply subscript_Ok in Hn, Hs. rewrite Hn, Hs. simpl.
    by apply div_zero.
Qed.

Lemma annualize_errors_example :
  annualize_present_value_period_cost (example_model 40 0 None None) 2030%Z 500000
  = Raise KeyError.
Proof.
  destruct (annualize_errors (example_model 40 0 None None) 2030%Z 500000)
    as (Hmissing & _).
  by apply Hmissing.
Defined.

(** ** More on the summary *)

Lemma total_demand_no_component (m : Model) (t : timepoint) :
  total_demand m [] t = Ok 0.
Proof. reflexivity. Qed.

Lemma discounted_kwh_no_component (m : Model) (tps : list timepoint) :
  Forall (fun t => is_Some (m.(bring_timepoint_costs_to_base_year) !! t)) tps ->
  exists k, discounted_kwh m [] tps = Ok k /\ k == 0.
Proof.
  unfold discounted_kwh.
  induction 1 as [|t tps [b Hb] _ (k & Hk & Hk0)].
  - by exists 0.
  - apply fmap_Ok in Hk as (vs & Hvs & ->). cbn [for_each].
    apply subscript_Ok in Hb. rewrite Hvs, Hb. simpl.
    eexists. split; [done|]. rewrite sum_cons, Hk0. unfold sum. simpl. ring.
Qed.

(** X6.  A model with none of the demand components [lz_demand_mw],
    [DemandResponse] and [ChargeEVs] has no summary: the cost per kWh
    divides the total cost by a demand of zero, and [summary_values]
    raises [ZeroDivisionError]. *)
Theorem summary_values_without_demand (m : Model) :
  m.(components) !! "lz_demand_mw"%string = None ->
  m.(components) !! "DemandResponse"%string = None ->
  m.(components) !! "ChargeEVs"%string = None ->
  Forall (fun t => is_Some (m.(bring_timepoint_costs_to_base_year) !! t))
    m.(TIMEPOINTS) ->
  summary_values m = Raise ZeroDivisionError.
Proof.
  intros H1 H2 H3 Hb. unfold summary_values, hasattr_name.
  assert (Hfilter :
    filter (fun c => hasattr (m.(components) !! c) = true)
      ["lz_demand_mw"; "DemandResponse"; "ChargeEVs"]%string = []).
  { rewrite !filter_cons, H1, H2, H3. simpl.
    repeat case_decide; try done. }
  rewrite Hfilter.
  destruct (discounted_kwh_no_component m _ Hb) as (k & -> & Hk). simpl.
  by rewrite div_zero.
Qed.

Lemma summary_values_without_demand_example :
  summary_values
    (example_variant ["winter_peak"; "average_day"]%string
       {[ "steam"%string := ["lng"; "diesel"]%string ]}
       {[ "LZ_NetDispatch"%string := everywhere 50 ]} None None)
  = Raise ZeroDivisionError.
Proof.
  apply summary_values_without_demand;
    [reflexivity | reflexivity | reflexivity |].
  repeat constructor; by eexists.
Defined.

(** ** More on the energy-sources report *)

(** X7.  Without a dual value for the energy-balance constraint of the
    zone and timepoint (a solver that gives no duals), the marginal cost of
    the row, its last cell but one, is zero. *)
Theorem marginal_cost_without_dual (m : Model) (avg : Q) (z : load_zone)
    (t : timepoint) (c : positive) (row : list pyval) :
  m.(Energy_Balance) !! (z, t) = Some c -> m.(dual) !! c = None ->
  energy_sources_values m avg z t = Ok row ->
  exists cells cost label,
    row = cells ++ [VFloat cost; VStr label] /\ cost == 0.
Proof.
  intros Hc Hdual Hrow. unfold energy_sources_values in Hrow. inv_Ok.
  apply subscript_Ok in Hc.
  match goal with
  | E : (Energy_Balance m).[_] = Ok ?c' |- _ =>
      rewrite Hc in E; injection E as <-
  end.
  match goal with
  | E : div (get _ _ _) ?b = Ok ?cost, P : peak_day _ _ _ = Ok ?label |- _ =>
      unfold get in E; rewrite Hdual in E; unfold div in E;
      destruct (Qeq_bool b 0); [discriminate|]; injection E as <-
  end.
  subst row. rewrite !app_assoc.
  match goal with
  | |- exists _ _ _, ?a :: ?b :: ?c :: ?l ++ [VFloat ?q; VStr ?s] = _ /\ _ =>
      exists ([a; b; c] ++ l), q, s
  end.
  split; [done|]. unfold Qdiv. ring.
Qed.

Lemma marginal_cost_without_dual_example :
  exists row cells cost label,
    energy_sources_values (example_model 40 0 None None) (365 # 2) "north" 2%Z
      = Ok row
    /\ row = cells ++ [VFloat cost; VStr label] /\ cost == 0.
Proof.
  eexists.
  destruct (marginal_cost_without_dual (example_model 40 0 None None) (365 # 2)
              "north" 2%Z 2%positive _ eq_refl eq_refl eq_refl)
    as (cells & cost & label & Hrow & Hcost).
  by exists cells, cost, label.
Defined.

(** X9.  A model without timeseries gets the summary at most: the mean
    scale divides by the number of timeseries, so that the pass ends with
    [ZeroDivisionError] after the summary, or with the exception of the
    summary and no file. *)
Theorem write_results_without_timeseries `{Financials} (m : Model)
    (outputs_dir : string) (files : list Table) :
  m.(TIMESERIES) = [] ->
  write_results m outputs_dir files
  = match summary_values m with
    | Ok row =>
        (files ++ [{| output_file := tsv outputs_dir "summary" (scenario_tag m);
                      headings := summary_headers m;
                      rows := [row] |}],
         Raise ZeroDivisionError)
    | Raise e => (files, Raise e)
    end.
Proof.
  intros Hts. unfold write_results. cbv zeta. rewrite bind_write.
  unfold write_table. simpl.
  destruct (summary_values m) as [row|e]; simpl; [|done].
  rewrite bind_eval. unfold avg_ts_scale. rewrite Hts. simpl. done.
Qed.

Lemma write_results_without_timeseries_example :
  (write_results
     (example_variant [] {[ "steam"%string := ["lng"; "diesel"]%string ]}
        (<[ "lz_demand_mw"%string := everywhere 40 ]>
           {[ "LZ_NetDispatch"%string := everywhere 50 ]}) None None)
     "out" []).2
  = Raise ZeroDivisionError.
Proof.
  rewrite write_results_without_timeseries by reflexivity. reflexivity.
Defined.

Lemma take_three_parts {A} (a b c t : list A) :
  take (length (a ++ b ++ c)) (a ++ b ++ c ++ t) = a ++ b ++ c.
Proof.
  replace (a ++ b ++ c ++ t) with ((a ++ b ++ c) ++ t)
    by (by rewrite <- !app_assoc).
  apply take_app_length.
Qed.

(** X10.  The dispatch columns of the energy-sources report do not depend
    on the load zone: two rows of one timepoint have the same cells for
    the fuels, the other energy sources and their curtailment, which are
    totals over the projects of all zones. *)
Theorem dispatch_columns_same_in_all_zones (m : Model) (avg : Q)
    (z z' : load_zone) (t : timepoint) (row row' : list pyval) :
  energy_sources_values m avg z t = Ok row ->
  energy_sources_values m avg z' t = Ok row' ->
  let n := (length m.(FUELS) + 2 * length m.(NON_FUEL_ENERGY_SOURCES))%nat in
  take n (drop 3 row) = take n (drop 3 row').
Proof.
  intros Hrow Hrow' n. unfold energy_sources_values in Hrow, Hrow'.
  apply bind_Ok in Hrow as (pe & Hpe & Hrow).
  apply bind_Ok in Hrow as (label & Hlabel & Hrow).
  apply bind_Ok in Hrow as (by_fuel & Hfuel & Hrow).
  apply bind_Ok in Hrow as (by_source & Hsource & Hrow).
  apply bind_Ok in Hrow as (curtail & Hcurtail & Hrow).
  rewrite Hpe, Hlabel, Hfuel, Hsource, Hcurtail in Hrow'. simpl in Hrow'.
  inv_Ok. subst row row'. simpl.
  apply for_each_length in Hfuel, Hsource, Hcurtail.
  assert (Hn : n = length (by_fuel ++ by_source ++ curtail)).
  { rewrite !length_app. unfold n, fuel, energy_source in *. lia. }
  rewrite Hn, !drop_0. by rewrite !take_three_parts.
Qed.

Lemma dispatch_columns_same_in_all_zones_example :
  take 4 (drop 3 [VStr "north"; VInt 2020; VStr "2020011518"; VFloat (75000 # 1000);
                  VFloat (25000 # 1000); VFloat 0; VFloat 20; VFloat 50;
                  VFloat 40; VFloat (180 # 3); VStr "peak"])
  = take 4 (drop 3 [VStr "south"; VInt 2020; VStr "2020011518";
                    VFloat (75000 # 1000); VFloat (25000 # 1000); VFloat 0;
                    VFloat 20; VFloat 50; VFloat 40; VFloat (0 # 3); VStr "peak"]).
Proof.
  exact (dispatch_columns_same_in_all_zones (example_model 40 0 None None)
           (365 # 2) "north" "south" 1%Z _ _ eq_refl eq_refl).
Defined.

(** ** The built projects and technologies *)

(** X12.  The columns of the capacity and cost-breakdown reports: a
    technology is built exactly when it is the technology of a project
    whose capacity is above 0.001 in some period, and no technology is
    listed twice. *)
Theorem built_tech_of_built_projects (m : Model) (bp : list project)
    (bt : list gen_tech) :
  built_proj m = Ok bp -> built_tech m bp = Ok bt ->
  NoDup bp /\ NoDup bt
  /\ (forall pr, pr ∈ bp <->
        pr ∈ m.(PROJECTS)
        /\ exists pe c, pe ∈ m.(PERIODS)
                        /\ m.(ProjCapacity) !! (pr, pe) = Some c /\ threshold < c)
  /\ (forall t, t ∈ bt <-> exists pr, pr ∈ bp /\ m.(proj_gen_tech) !! pr = Some t).
Proof.
  unfold built_proj, built_tech, tuple_set. intros Hbp Hbt.
  apply fmap_Ok in Hbp as (ps & Hps & ->). apply fmap_Ok in Hbt as (ts & Hts & ->).
  split; [apply NoDup_remove_dups|]. split; [apply NoDup_remove_dups|]. split.
  - intros pr. rewrite elem_of_remove_dups.
    rewrite (comprehension_elem_of _ _ _ _ pr Hps). split.
    + intros ([pe pr'] & Hin & Hc & Hpr). injection Hpr as ->.
      apply fmap_Ok in Hc as (c & Hc & Ha). apply subscript_Ok in Hc.
      symmetry in Ha. apply above_threshold_true in Ha.
      apply list_elem_of_In, in_prod_iff in Hin as [Hpe Hpr].
      apply list_elem_of_In in Hpe, Hpr. eauto 10.
    + intros (Hpr & pe & c & Hpe & Hc & Hlt). exists (pe, pr).
      split; [|split; [|done]].
      * apply list_elem_of_In, in_prod_iff. by rewrite <- !list_elem_of_In.
      * apply subscript_Ok in Hc. rewrite Hc. simpl.
        apply above_threshold_true in Hlt. by rewrite Hlt.
  - intros t. rewrite elem_of_remove_dups.
    apply for_each_Forall2 in Hts. split.
    + intros [i Hi]%list_elem_of_lookup.
      destruct (Forall2_lookup_r _ _ _ _ _ Hts Hi) as (pr & Hpr & Ht).
      exists pr. split; [by eapply list_elem_of_lookup_2 | by apply subscript_Ok].
    + intros (pr & [i Hi]%list_elem_of_lookup & Ht).
      destruct (Forall2_lookup_l _ _ _ _ _ Hts Hi) as (t' & Ht' & Hpr).
      apply subscript_Ok in Hpr. rewrite Ht in Hpr. injection Hpr as <-.
      by eapply list_elem_of_lookup_2.
Qed.

Lemma built_tech_of_built_projects_example :
  NoDup ["steam"; "turbine"]%string
  /\ exists pr, pr ∈ ["plant"; "wind_farm"]%string
                /\ proj_gen_tech (example_model 40 0 None None) !! pr
                   = Some "turbine"%string.
Proof.
  destruct (built_tech_of_built_projects (example_model 40 0 None None)
              ["plant"; "wind_farm"]%string ["steam"; "turbine"]%string
              eq_refl eq_refl)
    as (_ & Hnodup & _ & Htech).
  split; [exact Hnodup|]. apply Htech. right. left.
Defined.

(** ** More on the cost breakdown *)

(** X13.  A model with [ev_extra_annual_cost] and without
    [ice_annual_fuel_cost] has no cost-breakdown row: the row reads the
    second attribute wherever it has the first. *)
Theorem cost_breakdown_needs_both_transport_costs `{Financials} (m : Model)
    (bp : list project) (bt : list gen_tech) (z : load_zone) (pe : period)
    (row : list pyval) :
  is_Some m.(ev_extra_annual_cost) -> m.(ice_annual_fuel_cost) = None ->
  cost_breakdown_details m bp bt z pe <> Ok row.
Proof.
  intros [ev Hev] Hice Hrow. unfold cost_breakdown_details in Hrow.
  rewrite Hev, Hice in Hrow.
  do 13 (apply bind_Ok in Hrow as (? & _ & Hrow)).
  apply bind_Ok in Hrow as (? & Htransport & Hrow).
  apply bind_Ok in Htransport as (? & _ & Htransport). discriminate.
Qed.

Lemma cost_breakdown_needs_both_transport_costs_example :
  cost_breakdown_details (example_model 40 0 (Some {[ 2020%Z := 300 ]}) None)
    ["plant"; "wind_farm"]%string ["steam"; "turbine"]%string "north" 2020%Z
  <> Ok [].
Proof.
  apply cost_breakdown_needs_both_transport_costs; [by eexists | reflexivity].
Defined.

(** X15.  The total electricity cost of a cost-breakdown row is the
    annualized cost of the whole system in the period: it is the last cell
    before the two transport costs, and the same in the rows of all load
    zones. *)
Theorem total_electricity_cost_of_system `{Financials} (m : Model)
    (bp : list project) (bt : list gen_tech) (z : load_zone) (pe : period)
    (row : list pyval) :
  cost_breakdown_details m bp bt z pe = Ok row ->
  exists cells cost total transport,
    row = cells ++ [VFloat total] ++ transport
    /\ m.(SystemCostPerPeriod) !! pe = Some cost
    /\ annualize_present_value_period_cost m pe cost = Ok total
    /\ length transport = if hasattr m.(ev_extra_annual_cost) then 2%nat else 0%nat.
Proof.
  intros Hrow. unfold cost_breakdown_details in Hrow.
  do 11 (apply bind_Ok in Hrow as (? & _ & Hrow)).
  apply bind_Ok in Hrow as (cost & Hcost & Hrow).
  apply bind_Ok in Hrow as (total & Htotal & Hrow).
  apply bind_Ok in Hrow as (transport & Htransport & Hrow).
  injection Hrow as <-. apply subscript_Ok in Hcost.
  match goal with
  | |- exists _ _ _ _, ?a :: ?b :: (?l ++ [_]) ++ _ = _ /\ _ =>
      exists (a :: b :: l), cost, total, transport
  end.
  split; [simpl; by rewrite <- app_assoc|]. split; [done|]. split; [done|].
  destruct (ev_extra_annual_cost m); simpl in *; inv_Ok; by subst.
Qed.

Lemma total_electricity_cost_of_system_example :
  exists cells total,
    cost_breakdown_details (example_model 40 0 None None)
      ["plant"; "wind_farm"]%string ["steam"; "turbine"]%string "south" 2020%Z
    = Ok (cells ++ [VFloat total])
    /\ annualize_present_value_period_cost (example_model 40 0 None None)
         2020%Z 500000 = Ok total.
Proof.
  assert (exists row,
            cost_breakdown_details (example_model 40 0 None None)
              ["plant"; "wind_farm"]%string ["steam"; "turbine"]%string
              "south" 2020%Z = Ok row)
    as [row Hrow] by (eexists; vm_compute; reflexivity).
  destruct (total_electricity_cost_of_system _ _ _ _ _ _ Hrow)
    as (cells & cost & total & transport & -> & Hcost & Htotal & Hlen).
  vm_compute in Hcost. injection Hcost as <-.
  destruct transport; [|discriminate].
  by exists cells, total.
Defined.

(** ** The two capacity reports *)

Lemma selected_by_cons {A} (cond : A -> res bool) (x : A) (l : list A) :
  selected_by cond (x :: l)
  = selected_by cond [x] ++ selected_by cond l.
Proof. simpl. by destruct (cond x) as [[]|]. Qed.

Lemma concat_map_app {K A} (h f : K -> list A) (cols : list K) :
  concat (map (fun k => h k ++ f k) cols)
  ≡ₚ concat (map h cols) ++ concat (map f cols).
Proof.
  induction cols as [|k cols IH]; simpl; [done|].
  rewrite IH. rewrite <- !app_assoc. apply Permutation_app_head.
  rewrite !app_assoc. apply Permutation_app_tail. apply Permutation_app_comm.
Qed.

Lemma concat_map_nil {K A} (h : K -> list A) (cols : list K) :
  (forall k, k ∈ cols -> h k = []) -> concat (map h cols) = [].
Proof.
  induction cols as [|k cols IH]; intros Hh; simpl; [done|].
  rewrite Hh by left. rewrite IH; [done|]. intros k' Hk'. apply Hh. by right.
Qed.

(** A project that exactly one column selects is found once in the
    columns together. *)
Lemma selected_once {K A} (cond : K -> A -> res bool) (cols : list K) (x : A) :
  NoDup cols ->
  (forall k k', k ∈ cols -> k' ∈ cols ->
     cond k x = Ok true -> cond k' x = Ok true -> k = k') ->
  (exists k, k ∈ cols /\ cond k x = Ok true) ->
  concat (map (fun k => selected_by (cond k) [x]) cols) ≡ₚ [x].
Proof.
  induction 1 as [|k cols Hk Hnodup IH]; intros Hone (k0 & Hk0 & Hsel).
  - by apply elem_of_nil in Hk0.
  - simpl. destruct (cond k x) as [[]|] eqn:E.
    + rewrite concat_map_nil; [done|]. intros k' Hk'. simpl.
      destruct (cond k' x) as [[]|] eqn:E'; try done.
      assert (k = k') as <- by (apply Hone; [left | by right | done | done]).
      contradiction.
    + simpl. apply IH.
      * intros k1 k2 H1 H2. apply Hone; by right.
      * apply elem_of_cons in Hk0 as [-> | Hk0]; [congruence | eauto].
    + simpl. apply IH.
      * intros k1 k2 H1 H2. apply Hone; by right.
      * apply elem_of_cons in Hk0 as [-> | Hk0]; [congruence | eauto].
Qed.

Lemma selected_by_columns {K A} (cond : K -> A -> res bool) (cols : list K)
    (P : A -> Prop) `{forall x, Decision (P x)} (l : list A) :
  NoDup cols ->
  (forall x k k', x ∈ l -> k ∈ cols -> k' ∈ cols ->
     cond k x = Ok true -> cond k' x = Ok true -> k = k') ->
  (forall x, x ∈ l -> P x <-> exists k, k ∈ cols /\ cond k x = Ok true) ->
  concat (map (fun k => selected_by (cond k) l) cols) ≡ₚ filter P l.
Proof.
  intros Hnodup. induction l as [|x l IH]; intros Hone HP.
  - simpl. by rewrite concat_map_nil.
  - erewrite map_ext; [|intros k; apply selected_by_cons].
    rewrite concat_map_app, IH.
    2: { intros y k k' Hy. apply Hone. by right. }
    2: { intros y Hy. apply HP. by right. }
    rewrite filter_cons. destruct (decide (P x)) as [Hx | Hx].
    + rewrite selected_once; [done | done | | ].
      * intros k k'. apply Hone. left.
      * apply HP; [left | done].
    + rewrite concat_map_nil; [done|]. intros k Hk. simpl.
      destruct (cond k x) as [[]|] eqn:E; try done.
      exfalso. apply Hx. apply HP; [left | eauto].
Qed.

(** The terms of a comprehension are the values of its term at the
    elements let through. *)
Lemma comprehension_terms {A} (cond : A -> res bool) (e : A -> res Q)
    (l : list A) (vs : list Q) :
  comprehension cond e l = Ok vs ->
  vs = map (fun x => match e x with Ok v => v | Raise _ => 0 end)
         (selected_by cond l).
Proof.
  intros Hvs. apply comprehension_selected in Hvs.
  induction Hvs as [|x v l' vs' Hv _ IH]; [done|].
  simpl. by rewrite Hv, IH.
Qed.

Lemma for_each_columns {K} (f : K -> res (list Q)) (cols : list K)
    (cells : list pyval) :
  for_each (fun k => VFloat <$> (sum <$> f k)) cols = Ok cells ->
  exists terms,
    cells = map (fun ts => VFloat (sum ts)) terms
    /\ Forall2 (fun k ts => f k = Ok ts) cols terms.
Proof.
  revert cells. induction cols as [|k cols IH]; intros cells Hcells;
    simpl in Hcells.
  - injection Hcells as <-. by exists [].
  - apply bind_Ok in Hcells as (c & Hc & Hcells).
    apply bind_Ok in Hcells as (cells' & Hcells' & Hcells).
    injection Hcells as <-.
    apply fmap_Ok in Hc as (total & Htotal & ->).
    apply fmap_Ok in Htotal as (ts & Hts & ->).
    destruct (IH _ Hcells') as (terms & -> & Hterms).
    exists (ts :: terms). split; [done|]. by constructor.
Qed.

Lemma concat_terms {K} (cols : list K) (bp : list project)
    (cond : K -> project -> res bool) (e : project -> res Q)
    (terms : list (list Q)) :
  Forall2 (fun k ts => comprehension (cond k) e bp = Ok ts) cols terms ->
  concat terms
  = map (fun x => match e x with Ok v => v | Raise _ => 0 end)
      (concat (map (fun k => selected_by (cond k) bp) cols)).
Proof.
  induction 1 as [|k ts cols terms Hts _ IH]; [done|].
  simpl. rewrite map_app, <- IH. f_equal. by apply comprehension_terms.
Qed.

(** X16.  The two capacity reports count the same projects.  For a load
    zone and a period, the cells of the technology columns and of the
    energy-source columns are the sums of the terms that the code collects
    for them; the terms of the first, taken together, are those of the
    second up to their order, one for each built project of the zone, and
    the two rows end with the same three storage cells. *)
Theorem capacity_reports_count_same_projects (m : Model) (bp : list project)
    (ops : list (project * period)) (bt : list gen_tech)
    (bes : list energy_source) (z : load_zone) (pe : period)
    (by_technology by_energy_source : list pyval) :
  built_tech m bp = Ok bt -> built_energy_source m bt = Ok bes ->
  capacity_by_technology_values m bp ops bt z pe = Ok by_technology ->
  capacity_by_energy_source_values m bp ops bes z pe = Ok by_energy_source ->
  exists by_tech by_source storage,
    by_technology
    = [VStr z; VInt pe] ++ map (fun ts => VFloat (sum ts)) by_tech ++ storage
    /\ by_energy_source
       = [VStr z; VInt pe] ++ map (fun ts => VFloat (sum ts)) by_source ++ storage
    /\ Forall2 (fun t terms =>
                  comprehension (tech_in_zone m t z)
                    (fun pr => capacity_if_operated m ops pr pe) bp = Ok terms)
         bt by_tech
    /\ Forall2 (fun s terms =>
                  comprehension (source_in_zone m s z)
                    (fun pr => capacity_if_operated m ops pr pe) bp = Ok terms)
         bes by_source
    /\ concat by_tech ≡ₚ concat by_source
    /\ concat (map (fun t => selected_by (tech_in_zone m t z) bp) bt)
       ≡ₚ filter (fun pr => m.(proj_load_zone) !! pr = Some z) bp
    /\ concat (map (fun s => selected_by (source_in_zone m s z) bp) bes)
       ≡ₚ filter (fun pr => m.(proj_load_zone) !! pr = Some z) bp.
Proof.
  unfold built_tech, built_energy_source, tuple_set.
  intros Hbt Hbes Ht Hs.
  apply fmap_Ok in Hbt as (ts & Hts & ->). apply for_each_Forall2 in Hts.
  apply fmap_Ok in Hbes as (ss & Hss & ->). apply for_each_Forall2 in Hss.
  unfold capacity_by_technology_values in Ht.
  apply bind_Ok in Ht as (cells_t & Hcells_t & Ht).
  apply bind_Ok in Ht as (storage & Hstorage & Ht). injection Ht as <-.
  unfold capacity_by_energy_source_values in Hs.
  apply bind_Ok in Hs as (cells_s & Hcells_s & Hs).
  rewrite Hstorage in Hs. simpl in Hs. injection Hs as <-.
  unfold capacity_sum in Hcells_t, Hcells_s.
  apply for_each_columns in Hcells_t as (by_tech & -> & Htech).
  apply for_each_columns in Hcells_s as (by_source & -> & Hsource).
  exists by_tech, by_source, storage. split; [done|]. split; [done|].
  split; [done|]. split; [done|].
  assert (Htech_of : forall pr, pr ∈ bp ->
            exists g, m.(proj_gen_tech) !! pr = Some g /\ g ∈ remove_dups ts).
  { intros pr [i Hi]%list_elem_of_lookup.
    destruct (Forall2_lookup_l _ _ _ _ _ Hts Hi) as (g & Hg & Hpr).
    exists g. split; [by apply subscript_Ok|].
    apply elem_of_remove_dups. by eapply list_elem_of_lookup_2. }
  assert (Hsource_of : forall pr, pr ∈ bp ->
            exists g s, m.(proj_gen_tech) !! pr = Some g
                        /\ g_energy_source_lambda m g = Ok s
                        /\ s ∈ remove_dups ss).
  { intros pr Hpr. destruct (Htech_of pr Hpr) as (g & Hg & Hin).
    apply list_elem_of_lookup in Hin as [j Hj].
    destruct (Forall2_lookup_l _ _ _ _ _ Hss Hj) as (s & Hs & Hgs).
    exists g, s. split; [done|]. split; [done|].
    apply elem_of_remove_dups. by eapply list_elem_of_lookup_2. }
  assert (Hby_tech :
    concat (map (fun t => selected_by (tech_in_zone m t z) bp) (remove_dups ts))
    ≡ₚ filter (fun pr => m.(proj_load_zone) !! pr = Some z) bp).
  { apply (selected_by_columns (fun t => tech_in_zone m t z)).
    - apply NoDup_remove_dups.
    - intros pr t t' _ _ _ [H1 _]%tech_in_zone_true [H2 _]%tech_in_zone_true.
      congruence.
    - intros pr Hpr. split.
      + intros Hz. destruct (Htech_of pr Hpr) as (g & Hg & Hin).
        exists g. split; [done|]. by apply tech_in_zone_true.
      + by intros (t & _ & [_ Hz]%tech_in_zone_true). }
  assert (Hby_source :
    concat (map (fun s => selected_by (source_in_zone m s z) bp) (remove_dups ss))
    ≡ₚ filter (fun pr => m.(proj_load_zone) !! pr = Some z) bp).
  { apply (selected_by_columns (fun s => source_in_zone m s z)).
    - apply NoDup_remove_dups.
    - intros pr s s' _ _ _ (g & Hg & Hs & _)%source_in_zone_true
        (g' & Hg' & Hs' & _)%source_in_zone_true.
      congruence.
    - intros pr Hpr. split.
      + intros Hz. destruct (Hsource_of pr Hpr) as (g & s & Hg & Hs & Hin).
        exists s. split; [done|]. apply source_in_zone_true. eauto.
      + by intros (s & _ & (g & _ & _ & Hz)%source_in_zone_true). }
  split; [|done].
  rewrite (concat_terms _ _ _ _ _ Htech), (concat_terms _ _ _ _ _ Hsource).
  apply Permutation_map. by rewrite Hby_tech, Hby_source.
Qed.

Lemma capacity_reports_count_same_projects_example :
  exists by_tech by_source storage,
    [VStr "north"; VInt 2020; VFloat 120; VFloat 0; VInt 0; VFloat 0; VInt 0]
    = [VStr "north"; VInt 2020] ++ map (fun ts => VFloat (sum ts)) by_tech
      ++ storage
    /\ [VStr "north"; VInt 2020; VFloat 120; VFloat 0; VInt 0; VFloat 0; VInt 0]
       = [VStr "north"; VInt 2020] ++ map (fun ts => VFloat (sum ts)) by_source
         ++ storage
    /\ concat by_tech ≡ₚ concat by_source.
Proof.
  destruct (capacity_reports_count_same_projects (example_model 40 0 None None)
           ["plant"; "wind_farm"]%string [("plant"%string, 2020%Z)]
           ["steam"; "turbine"]%string ["diesel/lng"; "wind"]%string
           "north" 2020%Z _ _ eq_refl eq_refl eq_refl eq_refl)
    as (by_tech & by_source & storage & Ht & Hs & _ & _ & Hperm & _).
  by exists by_tech, by_source, storage.
Defined.

(** ** The files of a pass *)

Lemma length_append (s t : string) :
  String.length (s +:+ t) = (String.length s + String.length t)%nat.
Proof. induction s as [|a s IH]; [done|]. rewrite append_cons. simpl. by rewrite IH. Qed.

Lemma append_inv_head (s t u : string) : (s +:+ t = s +:+ u)%string -> t = u.
Proof.
  induction s as [|a s IH]; [done|]. rewrite !append_cons. intros [= Hs]. auto.
Qed.

Lemma append_inv_tail (s t u : string) : (s +:+ u = t +:+ u)%string -> s = t.
Proof.
  revert t. induction s as [|a s IH]; intros [|b t] Hst; try done.
  - apply (f_equal String.length) in Hst.
    rewrite append_nil_l, append_cons in Hst. simpl in Hst.
    rewrite length_append in Hst. lia.
  - apply (f_equal String.length) in Hst.
    rewrite append_nil_l, append_cons in Hst. simpl in Hst.
    rewrite length_append in Hst. lia.
  - rewrite !append_cons in Hst. injection Hst as -> Hst. f_equal. auto.
Qed.

Lemma report_files_NoDup (m : Model) (outputs_dir : string) :
  NoDup (report_files m outputs_dir).
Proof.
  unfold report_files.
  assert (Hinj : Inj eq eq (fun name => tsv outputs_dir name (scenario_tag m))).
  { intros n1 n2 Hn. unfold tsv in Hn.
    apply append_inv_head, append_inv_head in Hn.
    by apply append_inv_tail in Hn. }
  apply (NoDup_fmap_2 (fun name => tsv outputs_dir name (scenario_tag m))).
  destruct (hasattr (RFMSupplyTierActivate m)); simpl;
    apply (bool_decide_unpack _); by vm_compute.
Qed.

(** Closes the case of a pass that ended, for the names of its files. *)
Ltac files_named :=
  eexists; split;
    [simpl; first [symmetry; apply app_nil_r
                  | rewrite <- ?app_assoc; reflexivity]|];
  unfold report_files;
  try match goal with
  | E : RFMSupplyTierActivate _ = _ |- _ => rewrite E
  end;
  simpl;
  repeat match goal with
  | E : output_file _ = _ |- _ => rewrite E; clear E
  end;
  eexists; reflexivity.

(** The names of the files of a pass, complete or not, are the first
    names of the sequence of reports. *)
Lemma write_results_file_names `{Financials} (m : Model)
    (outputs_dir : string) (files : list Table) :
  exists written,
    (write_results m outputs_dir files).1 = files ++ written
    /\ map output_file written `prefix_of` report_files m outputs_dir.
Proof.
  unfold write_results. cbv zeta.
  next_statement; [|files_named].
  next_statement; [|files_named].
  next_statement; [|files_named].
  next_statement; [|files_named].
  next_statement; [|files_named].
  next_statement; [|files_named].
  next_statement; [|files_named].
  next_statement; [|files_named].
  next_statement; [|files_named].
  next_statement; [|files_named].
  destruct (RFMSupplyTierActivate m) as [activate|] eqn:Hactivate.
  - next_statement; [|files_named].
    next_statement; files_named.
  - files_named.
Qed.

(** X17.  The files that a pass writes, complete or not, have pairwise
    different names, each the name of one of the reports: no call of
    [util.write_table] in [write_results] overwrites the file of
    another. *)
Theorem write_results_files_differ `{Financials} (m : Model)
    (outputs_dir : string) (files : list Table) :
  exists written,
    (write_results m outputs_dir files).1 = files ++ written
    /\ NoDup (map output_file written)
    /\ Forall (fun t => t.(output_file) ∈ report_files m outputs_dir) written.
Proof.
  destruct (write_results_file_names m outputs_dir files)
    as (written & Hwritten & rest & Hrest).
  exists written. split; [done|].
  pose proof (report_files_NoDup m outputs_dir) as Hnodup.
  rewrite Hrest in Hnodup. apply NoDup_app in Hnodup as (Hnodup & _ & _).
  split; [done|].
  apply Forall_forall. intros t Ht. rewrite Hrest.
  apply elem_of_app. left. apply list_elem_of_fmap. eauto.
Qed.

Lemma Forall_snoc {A} (P : A -> Prop) (l : list A) (x : A) :
  Forall P l -> P x -> Forall P (l ++ [x]).
Proof. intros Hl Hx. apply Forall_app. split; [done|]. by constructor. Qed.

(** Every file of a pass, complete or not, was there before or comes from
    one of the six calls. *)
Lemma write_results_files `{Financials} (m : Model) (outputs_dir : string)
    (files : list Table) (P : Table -> Prop) :
  Forall P files ->
  (forall t, written_by_write_results m outputs_dir t -> P t) ->
  Forall P (write_results m outputs_dir files).1.
Proof.
  intros Hfiles HP. unfold write_results. cbv zeta.
  rewrite bind_write.
  destruct (write_table [] _ _ _) as [t0|] eqn:E0; [|done].
  assert (H0 : Forall P (files ++ [t0])).
  { apply Forall_snoc; [done|]. apply HP. by left. }
  clear Hfiles. rewrite bind_eval.
  destruct (avg_ts_scale m) as [avg|] eqn:Eavg; [|done].
  rewrite bind_write.
  destruct (write_table [zones m; keys (TIMEPOINTS m)] _ _ _) as [t1|] eqn:E1;
    [|done].
  assert (H1 : Forall P ((files ++ [t0]) ++ [t1])).
  { apply Forall_snoc; [done|]. apply HP. right. left. eauto. }
  clear H0. rewrite bind_eval.
  destruct (built_proj m) as [bp|] eqn:Ebp; [|done]. rewrite bind_eval.
  destruct (operate_proj_in_period m) as [ops|] eqn:Eops; [|done].
  rewrite bind_eval.
  destruct (built_tech m bp) as [bt|] eqn:Ebt; [|done]. rewrite bind_eval.
  destruct (built_energy_source m bt) as [bes|] eqn:Ebes; [|done].
  rewrite bind_write.
  destruct (write_table _ (tsv outputs_dir "capacity_by_technology" _) _ _)
    as [t2|] eqn:E2; [|done].
  assert (H2 : Forall P (((files ++ [t0]) ++ [t1]) ++ [t2])).
  { apply Forall_snoc; [done|]. apply HP. right. right. left. eauto 10. }
  clear H1. rewrite bind_write.
  destruct (write_table _ (tsv outputs_dir "capacity_by_energy_source" _) _ _)
    as [t3|] eqn:E3; [|done].
  assert (H3 : Forall P ((((files ++ [t0]) ++ [t1]) ++ [t2]) ++ [t3])).
  { apply Forall_snoc; [done|]. apply HP. right. right. right. left. eauto 10. }
  clear H2. rewrite bind_write.
  destruct (write_table _ (tsv outputs_dir "cost_breakdown" _) _ _)
    as [t4|] eqn:E4; [|done].
  assert (H4 : Forall P (((((files ++ [t0]) ++ [t1]) ++ [t2]) ++ [t3]) ++ [t4])).
  { apply Forall_snoc; [done|]. apply HP. do 4 right. left. eauto 10. }
  clear H3.
  destruct (RFMSupplyTierActivate m) as [activate|] eqn:Eact; [|done].
  rewrite bind_eval.
  destruct (RFM_SUPPLY_TIERS m) as [tiers|] eqn:Etiers; [|done]. simpl attr.
  cbv beta iota. rewrite write_alone.
  destruct (write_table _ (tsv outputs_dir "rfm_activate" _) _ _)
    as [t5|] eqn:E5; [|done].
  apply Forall_snoc; [done|]. apply HP. do 5 right.
  by exists activate, tiers.
Qed.

Lemma write_table_Ok (indexes : list (list (list pyval))) (file : string)
    (hs : list string) (values : list pyval -> res (list pyval)) (t : Table) :
  write_table indexes file hs values = Ok t ->
  t.(output_file) = file /\ t.(headings) = hs
  /\ length t.(rows) = product_size indexes
  /\ Forall (fun row => exists args, values args = Ok row) t.(rows).
Proof.
  unfold write_table. intros Ht. inv_Ok. subst t. simpl.
  split; [done|]. split; [done|]. split.
  - rewrite <- product_length. by eapply for_each_length.
  - match goal with Hr : for_each _ _ = Ok _ |- _ => apply for_each_Forall2 in Hr;
      rename Hr into Hrows end.
    apply Forall_forall. intros row [i Hi]%list_elem_of_lookup.
    destruct (Forall2_lookup_r _ _ _ _ _ Hrows Hi) as (x & _ & Hx). eauto.
Qed.

Lemma by_zone_and_key_Ok (f : load_zone -> Z -> res (list pyval))
    (args row : list pyval) :
  by_zone_and_key f args = Ok row -> exists z k, f z k = Ok row.
Proof.
  unfold by_zone_and_key.
  destruct args as [|[z| |] [|[|k|] [|]]]; try discriminate. eauto.
Qed.

(** X18.  Where a model has [ev_extra_annual_cost] or lacks
    [ice_annual_fuel_cost], every row of every file that a pass writes,
    complete or not, has as many cells as the header of its file. *)
Theorem write_results_rows_fit_headers `{Financials} (m : Model)
    (outputs_dir : string) :
  is_Some m.(ev_extra_annual_cost) \/ m.(ice_annual_fuel_cost) = None ->
  Forall (fun t => Forall (fun row => length row = length t.(headings)) t.(rows))
    (write_results m outputs_dir []).1.
Proof.
  intros Hguard. apply write_results_files; [constructor|].
  intros t Ht.
  assert (Hfit : forall ix file hs values,
            write_table ix file hs values = Ok t ->
            (forall args row, values args = Ok row -> length row = length hs) ->
            Forall (fun row => length row = length t.(headings)) t.(rows)).
  { intros ix file hs values Hw Harity.
    apply write_table_Ok in Hw as (_ & -> & _ & Hrows).
    eapply Forall_impl; [exact Hrows|]. intros row [args Hargs]. eauto. }
  destruct Ht as [Ht | [(avg & _ & Ht) | [(bp & ops & bt & _ & _ & _ & Ht)
    | [(bp & ops & bt & bes & _ & _ & _ & _ & Ht) | [(bp & bt & _ & _ & Ht)
    | (activate & tiers & _ & _ & Ht)]]]]];
    eapply Hfit; try exact Ht; intros args row Hrow.
  - by apply summary_arity.
  - apply by_zone_and_key_Ok in Hrow as (z & k & Hrow).
    by eapply energy_sources_arity.
  - apply by_zone_and_key_Ok in Hrow as (z & k & Hrow).
    by eapply capacity_by_technology_arity.
  - apply by_zone_and_key_Ok in Hrow as (z & k & Hrow).
    by eapply capacity_by_energy_source_arity.
  - apply by_zone_and_key_Ok in Hrow as (z & k & Hrow).
    by eapply cost_breakdown_arity.
  - destruct args as [|[r| |] [|[|p|] [|[st| |] [|]]]]; try discriminate.
    by eapply rfm_activate_arity.
Qed.

Lemma write_results_rows_fit_headers_example :
  Forall (fun t => Forall (fun row => length row = length t.(headings)) t.(rows))
    (write_results (example_model 40 0 None None) "out" []).1.
Proof.
  apply write_results_rows_fit_headers. by right.
Defined.

(** X19.  Every file that a pass writes has the name of a report and the
    number of rows of that report: one for the summary, one per load zone
    and timepoint for the energy sources, one per load zone and period
    for the capacities and the cost breakdown, one per supply tier for the
    fuel-market tiers. *)
Theorem write_results_row_counts `{Financials} (m : Model)
    (outputs_dir : string) :
  Forall (fun t =>
            exists name n,
              (name, n) ∈ report_shapes m
              /\ t.(output_file) = tsv outputs_dir name (scenario_tag m)
              /\ length t.(rows) = n)
    (write_results m outputs_dir []).1.
Proof.
  apply write_results_files; [constructor|].
  assert (Hsize : forall (a : list load_zone) (b : list Z),
            product_size [map (fun z => [VStr z]) a; keys b]
            = (length a * length b)%nat).
  { intros a b. unfold product_size, keys. simpl.
    by rewrite !length_map, Nat.mul_1_r. }
  unfold report_shapes.
  intros t [Ht | [(avg & _ & Ht) | [(bp & ops & bt & _ & _ & _ & Ht)
    | [(bp & ops & bt & bes & _ & _ & _ & _ & Ht) | [(bp & bt & _ & _ & Ht)
    | (activate & tiers & _ & Htiers & Ht)]]]]];
    apply write_table_Ok in Ht as (Hfile & _ & Hlen & _);
    try (unfold zones in Hlen; rewrite Hsize in Hlen);
    eexists _, _; (split; [|split; [exact Hfile | exact Hlen]]).
  - left.
  - right. left.
  - do 2 right. left.
  - do 3 right. left.
  - do 4 right. left.
  - rewrite Htiers. do 5 right. unfold product_size. simpl.
    rewrite length_map, Nat.mul_1_r. left.
Qed.

Lemma write_results_row_counts_example :
  Forall (fun t => length t.(rows) <> 3%nat)
    (write_results (example_model 40 0 None None) "out" []).1.
Proof.
  eapply Forall_impl;
    [exact (write_results_row_counts (example_model 40 0 None None) "out")|].
  intros t (name & n & Hin & _ & ->). unfold report_shapes in Hin. simpl in Hin.
  repeat (apply elem_of_cons in Hin as [[= _ ->] | Hin]; [done|]).
  by apply elem_of_nil in Hin.
Defined.

(** ** Reading a table of [write_tab] back *)

Lemma split_cons_other (c a : Ascii.ascii) (s : string) :
  Ascii.eqb a c = false ->
  exists h t, split c s = h :: t /\ split c (String a s) = String a h :: t.
Proof.
  intros Ha. simpl. rewrite Ha.
  destruct s as [|b s]; simpl; [by eexists _, _|].
  destruct (Ascii.eqb b c); [by eexists _, _|].
  destruct (split c s); by eexists _, _.
Qed.

Lemma split_append_sep (c : Ascii.ascii) (s t : string) :
  occurs c s = false -> split c (s +:+ String c t) = s :: split c t.
Proof.
  induction s as [|a s IH]; intros Hs.
  - rewrite append_nil_l. simpl. by rewrite Ascii.eqb_refl.
  - simpl in Hs. apply orb_false_iff in Hs as [Ha Hs].
    rewrite append_cons. simpl. by rewrite Ha, (IH Hs).
Qed.

Lemma split_no_sep (c : Ascii.ascii) (s : string) :
  occurs c s = false -> split c s = [s].
Proof.
  induction s as [|a s IH]; intros Hs; [done|].
  simpl in Hs. apply orb_false_iff in Hs as [Ha Hs].
  simpl. by rewrite Ha, (IH Hs).
Qed.

Lemma split_join (c : Ascii.ascii) (l : list string) :
  l <> [] -> Forall (fun x => occurs c x = false) l -> split c (join c l) = l.
Proof.
  intros Hl Hc. induction Hc as [|x l Hx Hc IH]; [done|].
  destruct l as [|y l].
  - by apply split_no_sep.
  - change (join c (x :: y :: l)) with (x +:+ String c "" +:+ join c (y :: l))%string.
    rewrite append_cons, append_nil_l, split_append_sep by done.
    by rewrite IH.
Qed.

Lemma occurs_append (c : Ascii.ascii) (s t : string) :
  occurs c (s +:+ t) = occurs c s || occurs c t.
Proof.
  induction s as [|a s IH]; [done|].
  rewrite append_cons. simpl. by rewrite IH, orb_assoc.
Qed.

Lemma occurs_join (c sep : Ascii.ascii) (l : list string) :
  Ascii.eqb sep c = false -> Forall (fun x => occurs c x = false) l ->
  occurs c (join sep l) = false.
Proof.
  intros Hsep Hc. induction Hc as [|x l Hx Hc IH]; [done|].
  destruct l as [|y l]; [done|].
  change (join sep (x :: y :: l)) with (x +:+ String sep "" +:+ join sep (y :: l))%string.
  rewrite !occurs_append, Hx, IH. simpl. by rewrite Hsep.
Qed.

Lemma split_unlines (ls : list string) :
  Forall (fun l => occurs newline l = false) ls ->
  split newline (unlines ls) = ls ++ [""%string].
Proof.
  induction 1 as [|l ls Hl _ IH]; [done|].
  simpl. by rewrite split_append_sep, IH.
Qed.

Lemma foldl_append_lines {B} (g : B -> string) (init : string) (l : list B) :
  foldl (fun f x => f +:+ (g x +:+ String newline ""))%string init l
  = (init +:+ unlines (map g l))%string.
Proof.
  revert init. induction l as [|x l IH]; intros init; simpl.
  - by rewrite append_nil_r.
  - rewrite IH, !append_assoc. by rewrite append_cons, append_nil_l.
Qed.

Lemma write_tab_unlines {A} (str_cell : A -> string) (fname : string)
    (headers : list string) (cursor : list (list (option A))) :
  (write_tab str_cell fname headers cursor).2
  = unlines (join tab headers :: map (fun row => join tab (line_of str_cell row)) cursor).
Proof.
  unfold write_tab. simpl. rewrite foldl_append_lines.
  by rewrite append_assoc, append_cons, append_nil_l.
Qed.

(** X20.  Reading a written table back.  Where no header and no cell text
    holds a tab or a newline, the header is not empty and no row is, the
    text of the file splits at the newlines into the header line, one line a
    row and an empty rest, and the lines split at the tabs into the
    headers and the cells as written, '.' standing for [None]. *)
Theorem write_tab_round_trip {A} (str_cell : A -> string) (fname : string)
    (headers : list string) (cursor : list (list (option A))) :
  headers <> [] -> Forall (fun row => row <> []) cursor ->
  Forall (fun h => occurs tab h = false /\ occurs newline h = false) headers ->
  Forall (fun row =>
            Forall (fun c => occurs tab c = false /\ occurs newline c = false)
              (line_of str_cell row))
    cursor ->
  exists lines,
    split newline (write_tab str_cell fname headers cursor).2 = lines ++ [""%string]
    /\ map (split tab) lines = headers :: map (line_of str_cell) cursor.
Proof.
  intros Hh Hrows Hhs Hcells. rewrite write_tab_unlines.
  eexists. split.
  - apply split_unlines. constructor.
    + apply occurs_join; [done|]. eapply Forall_impl; [exact Hhs|]. by intros ? [].
    + apply Forall_forall. intros l [row [<- Hrow]]%list_elem_of_In%in_map_iff.
      apply list_elem_of_In in Hrow.
      apply occurs_join; [done|].
      eapply Forall_impl; [exact (proj1 (Forall_forall _ _) Hcells row Hrow)|].
      by intros ? [].
  - simpl. f_equal.
    + apply split_join; [done|]. eapply Forall_impl; [exact Hhs|]. by intros ? [].
    + rewrite map_map. apply map_ext_in. intros row Hrow%list_elem_of_In.
      apply split_join.
      * pose proof (proj1 (Forall_forall _ _) Hrows row Hrow) as Hne.
        unfold line_of. by destruct row.
      * eapply Forall_impl; [exact (proj1 (Forall_forall _ _) Hcells row Hrow)|].
        by intros ? [].
Qed.

Lemma write_tab_round_trip_example :
  exists lines,
    split newline
      (write_tab (fun k : Z => pretty k) "periods"
         ["INVESTMENT_PERIOD"; "period_start"; "period_end"]%string
         [[Some 2020%Z; Some 2020%Z; None]]).2
    = lines ++ [""%string]
    /\ map (split tab) lines
       = [["INVESTMENT_PERIOD"; "period_start"; "period_end"];
          ["2020"; "2020"; "."]]%string.
Proof.
  destruct (write_tab_round_trip (fun k : Z => pretty k) "periods"
              ["INVESTMENT_PERIOD"; "period_start"; "period_end"]%string
              [[Some 2020%Z; Some 2020%Z; None]])
    as (lines & Hlines & Hcells);
    [discriminate | repeat constructor; discriminate
    | repeat constructor | repeat constructor |].
  exists lines. split; [exact Hlines|]. rewrite Hcells. reflexivity.
Defined.
